(** * InvoiceNow: the invoice API, the Solana Pay service and the payment page

    A shallow embedding of
    - the payment page ([PaymentPage], [getPaymentAmount], [handlePay]),
    - the Solana Pay service ([generatePaymentLink], [verifyPayment]),
    - the invoice routes and their SQLite queries,
    - the settlement of lottery entries, as the specification describes it,
    together with the properties the specification states about them.

    Amounts are integers in the smallest token unit.  JavaScript numbers are
    IEEE doubles; the page only doubles and subtracts amounts, which is exact
    on integers of the magnitude an INTEGER column holds, so amounts are
    modelled in [Z].  Where the code adds many amounts (the outstanding
    amount of the dashboard) the sum is taken in an abstract type of
    numbers, since the sum of doubles depends on the order of the terms. *)

From Stdlib Require Import ZArith NArith String Ascii List Bool.
From stdpp Require Import base option gmap strings list fin_maps pretty.

Local Open Scope string_scope.
Local Open Scope list_scope.
Local Open Scope Z_scope.

(** ** JavaScript truthiness of the values the code tests with [!x] or [x || y] *)

Module Js.

(** A string is falsy exactly when it is empty. *)
Definition truthy_string (s : string) : bool :=
  negb (String.eqb s "").

(** A number is falsy exactly when it is zero (NaN cannot arrive in JSON). *)
Definition truthy_number (z : Z) : bool :=
  negb (z =? 0).

(** An optional field: absent ([undefined]) and [null] are falsy. *)
Definition truthy_opt {A : Type} (truthy : A -> bool) (v : option A) : bool :=
  match v with
  | Some a => truthy a
  | None => false
  end.

(** [v || null] on an optional string. *)
Definition or_null (v : option string) : option string :=
  match v with
  | Some s => if truthy_string s then Some s else None
  | None => None
  end.

(** [String.prototype.toUpperCase] on ASCII text. *)
Definition upper_ascii (c : ascii) : ascii :=
  let n := N_of_ascii c in
  if ((97 <=? n) && (n <=? 122))%N then ascii_of_N (n - 32) else c.

Fixpoint toUpperCase (s : string) : string :=
  match s with
  | EmptyString => EmptyString
  | String c r => String (upper_ascii c) (toUpperCase r)
  end.

(** [String.prototype.toLowerCase] on ASCII text. *)
Definition lower_ascii (c : ascii) : ascii :=
  let n := N_of_ascii c in
  if ((65 <=? n) && (n <=? 90))%N then ascii_of_N (n + 32) else c.

Fixpoint toLowerCase (s : string) : string :=
  match s with
  | EmptyString => EmptyString
  | String c r => String (lower_ascii c) (toLowerCase r)
  end.

End Js.

(** ** Base58 and [PublicKey], as the code uses them from @solana/web3.js

    [new PublicKey(s)] decodes [s] with bs58 and throws unless the result has
    32 bytes; [toString] encodes the 32 bytes back. *)

Module Base58.

Definition ALPHABET : string :=
  "123456789ABCDEFGHJKLMNPQRSTUVWXYZabcdefghijkmnopqrstuvwxyz".

Fixpoint index_from (i : N) (c : ascii) (s : string) : option N :=
  match s with
  | EmptyString => None
  | String d r => if Ascii.eqb c d then Some i else index_from (N.succ i) c r
  end.

Definition digit (c : ascii) : option N := index_from 0%N c ALPHABET.

(** Leading ['1'] characters stand for leading zero bytes. *)
Fixpoint skip_leader (s : string) : nat * string :=
  match s with
  | String c r =>
      if Ascii.eqb c "1"%char
      then let '(n, t) := skip_leader r in (S n, t)
      else (O, s)
  | EmptyString => (O, s)
  end.

(** The number the remaining characters denote; [None] on a character
    outside the alphabet. *)
Fixpoint digits_value (acc : N) (s : string) : option N :=
  match s with
  | EmptyString => Some acc
  | String c r =>
      match digit c with
      | Some d => digits_value (acc * 58 + d)%N r
      | None => None
      end
  end.

(** Big-endian bytes of a number, without leading zero bytes. *)
Fixpoint be_bytes (fuel : nat) (n : N) (acc : list N) : list N :=
  match fuel with
  | O => acc
  | S f =>
      if (n =? 0)%N then acc
      else be_bytes f (n / 256)%N ((n mod 256)%N :: acc)
  end.

Definition bytes_of_N (n : N) : list N := be_bytes (N.size_nat n) n [].

Definition decode (s : string) : option (list N) :=
  let '(zeroes, rest) := skip_leader s in
  match digits_value 0%N rest with
  | Some n => Some (repeat 0%N zeroes ++ bytes_of_N n)%list
  | None => None
  end.

Fixpoint skip_zero_bytes (b : list N) : nat * list N :=
  match b with
  | x :: r =>
      if (x =? 0)%N
      then let '(n, t) := skip_zero_bytes r in (S n, t)
      else (O, b)
  | [] => (O, b)
  end.

Definition N_of_bytes (b : list N) : N :=
  fold_left (fun acc x => (acc * 256 + x)%N) b 0%N.

Definition digit_char (d : N) : ascii :=
  match String.get (N.to_nat d) ALPHABET with
  | Some c => c
  | None => "1"%char
  end.

Fixpoint be_digits (fuel : nat) (n : N) (acc : string) : string :=
  match fuel with
  | O => acc
  | S f =>
      if (n =? 0)%N then acc
      else be_digits f (n / 58)%N (String (digit_char (n mod 58)%N) acc)
  end.

Fixpoint leader (n : nat) (s : string) : string :=
  match n with
  | O => s
  | S k => String "1"%char (leader k s)
  end.

Definition encode (b : list N) : string :=
  let '(zeroes, rest) := skip_zero_bytes b in
  let n := N_of_bytes rest in
  leader zeroes (be_digits (N.size_nat n) n EmptyString).

End Base58.

Module PublicKey.

Definition PUBLIC_KEY_LENGTH : nat := 32.

(** [new PublicKey(value)]: [None] when the constructor throws. *)
Definition new (value : string) : option (list N) :=
  match Base58.decode value with
  | Some b => if Nat.eqb (length b) PUBLIC_KEY_LENGTH then Some b else None
  | None => None
  end.

Definition toString (k : list N) : string := Base58.encode k.

End PublicKey.

Definition SOL_MINT : string := "So11111111111111111111111111111111111111112".

(** The instruction encoders ([SystemProgram.transfer],
    [createTransferInstruction]) write the amount as a u64 and throw for a
    number outside its range. *)
Definition u64 (z : Z) : bool := (0 <=? z) && (z <? 2 ^ 64).

(** ** The payment page (pay/[id].tsx) *)

Module PayPage.

(** A public key is kept as its 32 bytes. *)
Abbreviation Key := (list N).

(** [PaymentData], with the fields the payment logic reads. *)
Record PaymentData := {
  id : string;
  creatorWallet : string;
  amount : Z;
  tokenMint : string;
  dueDate : Z;
  memo : option string;
  status : string;
  paymentLink : string
}.

(** The React state and wallet hooks [handlePay] closes over. *)
Record Page := {
  data : option PaymentData;
  publicKey : option Key;
  signTransaction : bool;
  poolWalletAddress : option string;
  doubleOrNothing : bool;
  walletBalance : option Z
}.

(** Payment amount: normal or 2x for double or nothing. *)
Definition getPaymentAmount (data : option PaymentData) (doubleOrNothing : bool) : Z :=
  match data with
  | None => 0
  | Some d => if doubleOrNothing then amount d * 2 else amount d
  end.

Definition hasEnoughBalance (p : Page) : bool :=
  match walletBalance p, data p with
  | Some wb, Some d =>
      let feeBuffer := if String.eqb (tokenMint d) SOL_MINT then 10000000 else 0 in
      wb >=? getPaymentAmount (data p) (doubleOrNothing p) + feeBuffer
  | _, _ => false
  end.

Definition canAffordDouble (p : Page) : bool :=
  match data p, walletBalance p with
  | Some d, Some wb => wb >=? amount d * 2
  | _, _ => false
  end.

(** The instructions [handlePay] adds to the transaction. *)
Inductive Instruction :=
| SystemTransfer (fromPubkey toPubkey : Key) (lamports : Z)
| CreateAssociatedTokenAccount (payer ata owner mint : Key)
| TokenTransfer (source destination owner : Key) (amount : Z).

(** What the page asks of the RPC node and the wallet.  [None] stands for
    a rejected promise. *)
Record Chain := {
  getAssociatedTokenAddress : Key -> Key -> option Key;
  getAccount : Key -> bool;
  sendRawTransaction : list Instruction -> option string;
  confirmedWithin30 : string -> bool
}.

Record VerifyRequest := {
  v_invoiceId : string;
  v_txSignature : string;
  v_expectedAmount : option Z
}.

(** The arguments of [createLotteryEntry]. *)
Record LotteryEntryRequest := {
  e_invoiceId : string;
  e_clientWallet : string;
  e_premiumPaid : Z;
  e_riskSlider : Z;
  e_txSignature : string
}.

(** What the page asks of the API. *)
Record Backend := {
  verifyPayment : VerifyRequest -> option bool;
  createLotteryEntry : LotteryEntryRequest -> option string;
  settleLottery : string -> option bool
}.

(** [isLottery = doubleOrNothing && premiumAmount > 0 && poolWalletAddress] *)
Definition isLottery (p : Page) (premiumAmount : Z) : bool :=
  doubleOrNothing p && (premiumAmount >? 0)
  && Js.truthy_opt Js.truthy_string (poolWalletAddress p).

Definition poolKey (p : Page) : option Key :=
  match poolWalletAddress p with
  | Some a => PublicKey.new a
  | None => None
  end.

(** The transaction built before signing; [None] when a constructor, a
    lookup or an instruction encoder throws. *)
Definition buildTransaction (c : Chain) (p : Page) (publicKey : Key)
    (d : PaymentData) : option (list Instruction) :=
  recipientPubkey ← PublicKey.new (creatorWallet d);
  mintPubkey ← PublicKey.new (tokenMint d);
  let paymentAmount := getPaymentAmount (Some d) (doubleOrNothing p) in
  let invoiceAmount := amount d in
  let premiumAmount := paymentAmount - invoiceAmount in
  if String.eqb (tokenMint d) SOL_MINT then
    if negb (u64 invoiceAmount) then None
    else
      let t := [SystemTransfer publicKey recipientPubkey invoiceAmount] in
      if isLottery p premiumAmount then
        poolPubkey ← poolKey p;
        if negb (u64 premiumAmount) then None
        else Some (t ++ [SystemTransfer publicKey poolPubkey premiumAmount])%list
      else Some t
  else
    payerAta ← getAssociatedTokenAddress c mintPubkey publicKey;
    recipientAta ← getAssociatedTokenAddress c mintPubkey recipientPubkey;
    let t0 :=
      if getAccount c recipientAta then []
      else [CreateAssociatedTokenAccount publicKey recipientAta recipientPubkey mintPubkey] in
    if negb (u64 invoiceAmount) then None
    else
      let t1 := (t0 ++ [TokenTransfer payerAta recipientAta publicKey invoiceAmount])%list in
      if isLottery p premiumAmount then
        poolPubkey ← poolKey p;
        poolAta ← getAssociatedTokenAddress c mintPubkey poolPubkey;
        let t2 :=
          if getAccount c poolAta then []
          else [CreateAssociatedTokenAccount publicKey poolAta poolPubkey mintPubkey] in
        if negb (u64 premiumAmount) then None
        else Some (t1 ++ t2 ++ [TokenTransfer payerAta poolAta publicKey premiumAmount])%list
      else Some t1.

Inductive Toast :=
| ToastError (message : option string)   (* [None]: the message of a library error *)
| ToastSuccess (message : string).

(** What a run of [handlePay] does, in order.  The wheel animation that
    follows a settlement only displays its result and is left out. *)
Inductive Effect :=
| Notify (t : Toast)
| Send (tx : list Instruction) (signature : string)
| Verify (r : VerifyRequest)
| CreateEntry (r : LotteryEntryRequest)
| Settle (entryId : string) (won : bool)
| SetStatusPaid.

Definition failed (message : option string) : list Effect :=
  [Notify (ToastError message)].

(** The double-or-nothing branch after confirmation. *)
Definition spin (b : Backend) (publicKey : Key) (d : PaymentData)
    (paymentAmount : Z) (signature : string) : list Effect :=
  let premiumPaid := paymentAmount - amount d in
  let vr := {| v_invoiceId := id d; v_txSignature := signature;
               v_expectedAmount := Some (amount d) |} in
  match verifyPayment b vr with
  | None => Verify vr :: failed None
  | Some false => Verify vr :: failed None
  | Some true =>
      let er := {| e_invoiceId := id d;
                   e_clientWallet := PublicKey.toString publicKey;
                   e_premiumPaid := premiumPaid;
                   e_riskSlider := 50;
                   e_txSignature := signature |} in
      match createLotteryEntry b er with
      | None => Verify vr :: CreateEntry er :: failed None
      | Some entryId =>
          match settleLottery b entryId with
          | None => Verify vr :: CreateEntry er :: failed None
          | Some won =>
              [Verify vr; CreateEntry er; Settle entryId won;
               Notify (ToastSuccess (if won then "YOU WON! Invoice is FREE!"
                                     else "Invoice paid!"));
               SetStatusPaid]
          end
      end
  end.

(** The standard branch after confirmation. *)
Definition standard (b : Backend) (d : PaymentData) (signature : string)
    : list Effect :=
  let vr := {| v_invoiceId := id d; v_txSignature := signature;
               v_expectedAmount := None |} in
  match verifyPayment b vr with
  | None => Verify vr :: failed None
  | Some false =>
      [Verify vr;
       Notify (ToastError (Some "Payment sent but verification failed. It will be confirmed shortly."));
       SetStatusPaid]
  | Some true => [Verify vr; Notify (ToastSuccess "Payment sent!"); SetStatusPaid]
  end.

Definition handlePay (c : Chain) (b : Backend) (p : Page) : list Effect :=
  match publicKey p, signTransaction p, data p with
  | Some pk, true, Some d =>
      if negb (hasEnoughBalance p) then failed (Some "Insufficient balance")
      else
        match buildTransaction c p pk d with
        | None => failed None
        | Some tx =>
            match sendRawTransaction c tx with
            | None => failed None
            | Some signature =>
                if negb (confirmedWithin30 c signature)
                then Send tx signature :: failed (Some "Transaction confirmation timeout")
                else
                  let paymentAmount := getPaymentAmount (data p) (doubleOrNothing p) in
                  Send tx signature ::
                    (if doubleOrNothing p
                     then spin b pk d paymentAmount signature
                     else standard b d signature)
            end
        end
  | _, _, _ => failed (Some "Please connect your wallet")
  end.

(** The (destination, amount) pairs of the transfers in a transaction. *)
Definition transfer_of (i : Instruction) : option (Key * Z) :=
  match i with
  | SystemTransfer _ to lamports => Some (to, lamports)
  | TokenTransfer _ destination _ amount => Some (destination, amount)
  | CreateAssociatedTokenAccount _ _ _ _ => None
  end.

Definition transfers (tx : list Instruction) : list (Key * Z) :=
  omap transfer_of tx.

Definition totalTransferred (tx : list Instruction) : Z :=
  foldr (fun t acc => t.2 + acc) 0 (transfers tx).

(** The account a transfer to [owner] is addressed to: the wallet itself
    for SOL, its associated token account otherwise. *)
Definition payee (c : Chain) (d : PaymentData) (owner : Key) : option Key :=
  if String.eqb (tokenMint d) SOL_MINT then Some owner
  else mint ← PublicKey.new (tokenMint d); getAssociatedTokenAddress c mint owner.

End PayPage.

(** ** The Solana Pay service (api/src/services/solana-pay.ts) *)

Module SolanaPay.

Abbreviation Key := (list N).

(** What the service takes from Node and its libraries: the SHA-256 digest,
    the public key of the ed25519 key pair grown from a 32-byte seed, and
    JavaScript's numbers with the three operations the link needs. *)
Record Platform := {
  sha256 : string -> list N;
  keypairFromSeed : list N -> Key;
  number : Type;
  ofInteger : Z -> number;
  pow10 : nat -> number;
  divide : number -> number -> number;
  numberToString : number -> string
}.

(** *** [URLSearchParams.toString]: application/x-www-form-urlencoded *)

Definition hexDigit (n : N) : ascii :=
  if (n <? 10)%N then ascii_of_N (48 + n) else ascii_of_N (55 + n).

Definition unreserved (n : N) : bool :=
  ((48 <=? n) && (n <=? 57) || (65 <=? n) && (n <=? 90)
   || (97 <=? n) && (n <=? 122)
   || (n =? 42) || (n =? 45) || (n =? 46) || (n =? 95))%N.

Definition encodeByte (c : ascii) : string :=
  let n := N_of_ascii c in
  if (n =? 32)%N then "+"
  else if unreserved n then String c EmptyString
  else String "%"%char
         (String (hexDigit (n / 16)%N) (String (hexDigit (n mod 16)%N) EmptyString)).

Fixpoint urlencode (s : string) : string :=
  match s with
  | EmptyString => EmptyString
  | String c r => (encodeByte c ++ urlencode r)%string
  end.

Definition encodePair (kv : string * string) : string :=
  (urlencode kv.1 ++ "=" ++ urlencode kv.2)%string.

Fixpoint serialize (params : list (string * string)) : string :=
  match params with
  | [] => EmptyString
  | [kv] => encodePair kv
  | kv :: rest => (encodePair kv ++ "&" ++ serialize rest)%string
  end.

(** [URLSearchParams.get]: the first value stored under a name. *)
Fixpoint get (name : string) (params : list (string * string)) : option string :=
  match params with
  | [] => None
  | (k, v) :: rest => if String.eqb k name then Some v else get name rest
  end.

(** *** [generatePaymentLink] *)

Definition DEFAULT_API_URL : string := "http://localhost:3001".

(** [process.env.API_URL || "http://localhost:3001"] *)
Definition baseUrl (env : gmap string string) : string :=
  match env !! "API_URL" with
  | Some u => if Js.truthy_string u then u else DEFAULT_API_URL
  | None => DEFAULT_API_URL
  end.

(** The tracking reference: deterministic from the invoice id. *)
Definition reference (pf : Platform) (invoiceId : string) : Key :=
  let hash := sha256 pf invoiceId in
  keypairFromSeed pf hash.

Definition decimals (tokenMint : string) : nat :=
  if String.eqb tokenMint SOL_MINT then 9%nat else 6%nat.

Definition decimalAmount (pf : Platform) (amount : Z) (tokenMint : string) : number pf :=
  divide pf (ofInteger pf amount) (pow10 pf (decimals tokenMint)).

(** The entries appended to [params], in order. *)
Definition linkParams (pf : Platform) (invoiceId : string) (amount : Z)
    (tokenMint : string) (memo : option string) : list (string * string) :=
  [("amount", numberToString pf (decimalAmount pf amount tokenMint))]
  ++ (if negb (String.eqb tokenMint SOL_MINT) then [("spl-token", tokenMint)] else [])
  ++ [("reference", PublicKey.toString (reference pf invoiceId))]
  ++ [("label", "InvoiceNow")]
  ++ [("message",
       if Js.truthy_opt Js.truthy_string memo
       then ("Invoice " ++ invoiceId ++ ": " ++ default "" memo)%string
       else ("Invoice " ++ invoiceId)%string)].

(** [None] when [new PublicKey(recipient)] throws. *)
Definition generatePaymentLink (pf : Platform) (env : gmap string string)
    (invoiceId recipient : string) (amount : Z) (tokenMint : string)
    (memo : option string) : option string :=
  let baseUrl := baseUrl env in
  recipientPubkey ← PublicKey.new recipient;
  let url := ("solana:" ++ PublicKey.toString recipientPubkey)%string in
  let params := linkParams pf invoiceId amount tokenMint memo in
  Some (url ++ "?" ++ serialize params)%string.

(** *** [verifyPayment] *)

(** The outcome of awaiting an RPC call. *)
Inductive Awaited (A : Type) :=
| Resolved (a : A)
| Rejected.
Arguments Resolved {A} a.
Arguments Rejected {A}.

(** An on-chain error, as the node reports it: always a truthy value. *)
Inductive TransactionError :=
| TxError (description : string).

Record TransactionMeta := {
  err : option TransactionError;
  fee : Z
}.

(** The part of [VersionedTransactionResponse] the check reads. *)
Record TransactionResponse := {
  slot : Z;
  meta : option TransactionMeta
}.

Definition verifyPayment
    (getTransaction : string -> Awaited (option TransactionResponse))
    (signature expectedRecipient : string) (expectedAmount : Z)
    (expectedMint : string) : bool :=
  match getTransaction signature with
  | Resolved tx =>
      match tx with
      | None => false
      | Some tx =>
          match meta tx with
          | None => false
          | Some m =>
              match err m with
              | Some _ => false
              | None => true
              end
          end
      end
  | Rejected => false
  end.

End SolanaPay.

(** ** The SQLite store (api/src/db.ts) *)

Module Db.

Record Milestone := {
  m_description : string;
  m_amount : Z
}.

(** A row of [invoices].  Nullable columns are options.  [created_at] and
    [reminder_count] are never NULL: rows are inserted by [create] alone,
    which leaves them to their defaults, and only [updateReminder] writes
    the count.  The [milestones] column holds JSON text. *)
Record Invoice := {
  id : string;
  creator_wallet : string;
  client_email : option string;
  client_wallet : option string;
  amount : Z;
  token_mint : string;
  due_date : Z;
  memo : option string;
  status : option string;
  created_at : Z;
  paid_at : option Z;
  tx_signature : option string;
  on_chain_address : option string;
  payment_link : option string;
  milestones : option string;
  reminder_count : Z;
  last_reminder_at : option Z
}.

Record Client := {
  c_id : string;
  c_owner_wallet : string;
  c_name : string;
  c_email : option string;
  c_wallet : option string;
  c_created_at : Z
}.

Record Database := {
  invoices : gmap string Invoice;
  clients : gmap string Client
}.

Definition with_invoices (db : Database) (m : gmap string Invoice) : Database :=
  {| invoices := m; clients := clients db |}.

Definition with_clients (db : Database) (m : gmap string Client) : Database :=
  {| invoices := invoices db; clients := m |}.

Module invoiceQueries.

(** INSERT INTO invoices (id, creator_wallet, client_email, amount,
    token_mint, due_date, memo, milestones, payment_link): the other
    columns take their defaults.  [None] when the primary key is taken. *)
Definition create (now : Z) (id creator_wallet : string)
    (client_email : option string) (amount : Z) (token_mint : string)
    (due_date : Z) (memo : option string)
    (milestones : option string) (payment_link : string)
    (db : Database) : option Database :=
  match invoices db !! id with
  | Some _ => None
  | None =>
      Some (with_invoices db
        (<[id :=
            {| id := id;
               creator_wallet := creator_wallet;
               client_email := client_email;
               client_wallet := None;
               amount := amount;
               token_mint := token_mint;
               due_date := due_date;
               memo := memo;
               status := Some "pending";
               created_at := now;
               paid_at := None;
               tx_signature := None;
               on_chain_address := None;
               payment_link := Some payment_link;
               milestones := milestones;
               reminder_count := 0;
               last_reminder_at := None |}]> (invoices db)))
  end.

(** SELECT * FROM invoices WHERE id = ? *)
Definition getById (id : string) (db : Database) : option Invoice :=
  invoices db !! id.

(** SELECT * FROM invoices WHERE creator_wallet = ?  (the rows, without
    their order) *)
Definition getByCreator (wallet : string) (db : Database) : gmap string Invoice :=
  filter (fun kv => creator_wallet kv.2 = wallet) (invoices db).

Definition set_status (status : option string) (paid_at : option Z)
    (tx_signature : option string) (r : Invoice) : Invoice :=
  {| id := id r;
     creator_wallet := creator_wallet r;
     client_email := client_email r;
     client_wallet := client_wallet r;
     amount := amount r;
     token_mint := token_mint r;
     due_date := due_date r;
     memo := memo r;
     status := status;
     created_at := created_at r;
     paid_at := paid_at;
     tx_signature := tx_signature;
     on_chain_address := on_chain_address r;
     payment_link := payment_link r;
     milestones := milestones r;
     reminder_count := reminder_count r;
     last_reminder_at := last_reminder_at r |}.

(** UPDATE invoices SET status = ?, paid_at = ?, tx_signature = ? WHERE id = ? *)
Definition updateStatus (status : option string) (paid_at : option Z)
    (tx_signature : option string) (id : string) (db : Database) : Database :=
  with_invoices db (alter (set_status status paid_at tx_signature) id (invoices db)).

Definition set_on_chain_address (a : option string) (r : Invoice) : Invoice :=
  {| id := id r;
     creator_wallet := creator_wallet r;
     client_email := client_email r;
     client_wallet := client_wallet r;
     amount := amount r;
     token_mint := token_mint r;
     due_date := due_date r;
     memo := memo r;
     status := status r;
     created_at := created_at r;
     paid_at := paid_at r;
     tx_signature := tx_signature r;
     on_chain_address := a;
     payment_link := payment_link r;
     milestones := milestones r;
     reminder_count := reminder_count r;
     last_reminder_at := last_reminder_at r |}.

(** UPDATE invoices SET on_chain_address = ? WHERE id = ? *)
Definition updateOnChainAddress (a : option string) (id : string)
    (db : Database) : Database :=
  with_invoices db (alter (set_on_chain_address a) id (invoices db)).

Definition bump_reminder (at_ : Z) (r : Invoice) : Invoice :=
  {| id := id r;
     creator_wallet := creator_wallet r;
     client_email := client_email r;
     client_wallet := client_wallet r;
     amount := amount r;
     token_mint := token_mint r;
     due_date := due_date r;
     memo := memo r;
     status := status r;
     created_at := created_at r;
     paid_at := paid_at r;
     tx_signature := tx_signature r;
     on_chain_address := on_chain_address r;
     payment_link := payment_link r;
     milestones := milestones r;
     reminder_count := reminder_count r + 1;
     last_reminder_at := Some at_ |}.

(** UPDATE invoices SET reminder_count = reminder_count + 1,
    last_reminder_at = ? WHERE id = ? *)
Definition updateReminder (at_ : Z) (id : string) (db : Database) : Database :=
  with_invoices db (alter (bump_reminder at_) id (invoices db)).

(** SELECT * FROM invoices WHERE status = 'pending' *)
Definition getPending (db : Database) : gmap string Invoice :=
  filter (fun kv => status kv.2 = Some "pending") (invoices db).

(** SELECT * FROM invoices WHERE status = 'pending' AND due_date < now *)
Definition getOverdue (now : Z) (db : Database) : gmap string Invoice :=
  filter (fun kv => status kv.2 = Some "pending" /\ due_date kv.2 < now) (invoices db).

End invoiceQueries.

Module clientQueries.

(** INSERT INTO clients (id, owner_wallet, name, email, wallet) *)
Definition create (now : Z) (id owner_wallet name : string)
    (email wallet : option string) (db : Database) : option Database :=
  match clients db !! id with
  | Some _ => None
  | None =>
      Some (with_clients db
        (<[id := {| c_id := id; c_owner_wallet := owner_wallet; c_name := name;
                    c_email := email; c_wallet := wallet;
                    c_created_at := now |}]> (clients db)))
  end.

Definition getByOwner (wallet : string) (db : Database) : gmap string Client :=
  filter (fun kv => c_owner_wallet kv.2 = wallet) (clients db).

Definition getById (id : string) (db : Database) : option Client :=
  clients db !! id.

End clientQueries.

End Db.

(** ** The invoice routes (api/src/routes/invoices.ts) *)

Module Routes.
Import Db.

(** What [JSON.parse] makes of a stored text: a list of milestones, or
    another JSON value (kept as its text). *)
Inductive Parsed :=
| ParsedMilestones (l : list Milestone)
| ParsedOther (text : string).

(** What the handlers take from outside the process and from the
    JavaScript runtime. *)
Record World := {
  platform : SolanaPay.Platform;
  env : gmap string string;
  now : Z;                                   (* seconds since the epoch *)
  nanoid : nat -> string;
  sendReminderEmail : Invoice -> bool;       (* [false]: the promise rejects *)
  generateQRCode : option string -> option string;  (* [None]: it rejects *)
  stringify : list Milestone -> string;      (* [JSON.stringify] *)
  parse : string -> option Parsed            (* [JSON.parse]; [None]: it throws *)
}.

(** The fields the handlers destructure from [req.body]; a field is [None]
    when it is absent or null. *)
Record Body := {
  creatorWallet : option string;
  clientEmail : option string;
  amount : option Z;
  tokenMint : option string;
  dueDate : option Z;
  memo : option string;
  milestones : option (list Milestone);
  status : option string;
  txSignature : option string;
  ownerWallet : option string;
  name : option string;
  email : option string;
  wallet : option string
}.

Inductive Method := GET | POST | PATCH | PUT | DELETE.

(** A request as the router sees it: the path below the mount point, split
    into its segments, and [req.query.wallet] when it is a string. *)
Record Request := {
  method : Method;
  path : list string;
  query_wallet : option string;
  body : Body
}.

(** An invoice as the GET routes answer it: the columns of the row other
    than [milestones], and the milestones parsed ([None] for null). *)
Record InvoiceView := {
  v_invoice : Invoice;
  v_milestones : option Parsed
}.

(** The row in a view: the key [milestones] of the spread row is
    overwritten, so the stored text is not part of the answer. *)
Definition otherColumns (inv : Invoice) : Invoice :=
  {| Db.id := Db.id inv;
     Db.creator_wallet := Db.creator_wallet inv;
     Db.client_email := Db.client_email inv;
     Db.client_wallet := Db.client_wallet inv;
     Db.amount := Db.amount inv;
     Db.token_mint := Db.token_mint inv;
     Db.due_date := Db.due_date inv;
     Db.memo := Db.memo inv;
     Db.status := Db.status inv;
     Db.created_at := Db.created_at inv;
     Db.paid_at := Db.paid_at inv;
     Db.tx_signature := Db.tx_signature inv;
     Db.on_chain_address := Db.on_chain_address inv;
     Db.payment_link := Db.payment_link inv;
     Db.milestones := None;
     Db.reminder_count := Db.reminder_count inv;
     Db.last_reminder_at := Db.last_reminder_at inv |}.

Inductive Json :=
| JError (error : string)
| JCreated (invoice : option Invoice) (paymentLink qrCodeUrl : string)
| JInvoices (rows : gmap string InvoiceView)
| JInvoice (view : InvoiceView)
| JSuccess (message : option string)
| JQr (qrCode : string)
| JClient (row : option Client)
| JClients (rows : gmap string Client).

Record Response := {
  code : Z;
  json : Json
}.

Definition respond (code : Z) (j : Json) : Response :=
  {| code := code; json := j |}.

(** [!creatorWallet || !amount || !tokenMint || !dueDate] *)
Definition missingRequired (b : Body) : bool :=
  negb (Js.truthy_opt Js.truthy_string (creatorWallet b))
  || negb (Js.truthy_opt Js.truthy_number (amount b))
  || negb (Js.truthy_opt Js.truthy_string (tokenMint b))
  || negb (Js.truthy_opt Js.truthy_number (dueDate b)).

(** router.post("/") *)
Definition createInvoice (w : World) (b : Body) (db : Database)
    : Database * Response :=
  if missingRequired b
  then (db, respond 400 (JError "Missing required fields"))
  else
    let creatorWallet := default "" (creatorWallet b) in
    let amount := default 0 (amount b) in
    let tokenMint := default "" (tokenMint b) in
    let dueDate := default 0 (dueDate b) in
    let id := ("INV-" ++ Js.toUpperCase (nanoid w 8))%string in
    match SolanaPay.generatePaymentLink (platform w) (env w) id creatorWallet
            amount tokenMint (memo b) with
    | None => (db, respond 500 (JError "Failed to create invoice"))
    | Some paymentLink =>
        match invoiceQueries.create (now w) id creatorWallet
                (Js.or_null (clientEmail b)) amount tokenMint dueDate
                (Js.or_null (memo b)) (stringify w <$> milestones b) paymentLink db with
        | None => (db, respond 500 (JError "Failed to create invoice"))
        | Some db' =>
            let invoice := invoiceQueries.getById id db' in
            (db', respond 201
                    (JCreated invoice paymentLink ("/pay/" ++ id ++ "/qr")%string))
        end
    end.

(** [{...inv, milestones: inv.milestones ? JSON.parse(inv.milestones) : null}];
    [None] when [JSON.parse] throws. *)
Definition parsed (w : World) (inv : Invoice) : option InvoiceView :=
  match Js.or_null (Db.milestones inv) with
  | Some text =>
      p ← parse w text;
      Some {| v_invoice := otherColumns inv; v_milestones := Some p |}
  | None => Some {| v_invoice := otherColumns inv; v_milestones := None |}
  end.

(** router.get("/") *)
Definition listInvoices (w : World) (q : option string) (db : Database)
    : Database * Response :=
  match q with
  | Some wallet =>
      if Js.truthy_string wallet
      then
        let invoices := invoiceQueries.getByCreator wallet db in
        if bool_decide (map_Forall (fun _ inv => is_Some (parsed w inv)) invoices)
        then (db, respond 200 (JInvoices (omap (parsed w) invoices)))
        else (db, respond 500 (JError "Failed to fetch invoices"))
      else (db, respond 400 (JError "Wallet address required"))
  | None => (db, respond 400 (JError "Wallet address required"))
  end.

(** router.get("/:id") *)
Definition getInvoice (w : World) (id : string) (db : Database)
    : Database * Response :=
  match invoiceQueries.getById id db with
  | None => (db, respond 404 (JError "Invoice not found"))
  | Some invoice =>
      match parsed w invoice with
      | Some view => (db, respond 200 (JInvoice view))
      | None => (db, respond 500 (JError "Failed to fetch invoice"))
      end
  end.

(** router.post("/:id/remind") *)
Definition remind (w : World) (id : string) (db : Database) : Database * Response :=
  match invoiceQueries.getById id db with
  | None => (db, respond 404 (JError "Invoice not found"))
  | Some invoice =>
      if negb (bool_decide (Db.status invoice = Some "pending"))
      then (db, respond 400 (JError "Invoice is not pending"))
      else if negb (Js.truthy_opt Js.truthy_string (client_email invoice))
      then (db, respond 400 (JError "No client email on invoice"))
      else if sendReminderEmail w invoice
      then (invoiceQueries.updateReminder (now w) id db,
            respond 200 (JSuccess (Some "Reminder sent")))
      else (db, respond 500 (JError "Failed to send reminder"))
  end.

(** router.patch("/:id/status") *)
Definition patchStatus (w : World) (id : string) (b : Body) (db : Database)
    : Database * Response :=
  match invoiceQueries.getById id db with
  | None => (db, respond 404 (JError "Invoice not found"))
  | Some _ =>
      let paidAt := if bool_decide (status b = Some "paid") then Some (now w) else None in
      (invoiceQueries.updateStatus (status b) paidAt (Js.or_null (txSignature b)) id db,
       respond 200 (JSuccess None))
  end.

(** router.get("/:id/qr") *)
Definition getQr (w : World) (id : string) (db : Database) : Database * Response :=
  match invoiceQueries.getById id db with
  | None => (db, respond 404 (JError "Invoice not found"))
  | Some invoice =>
      match generateQRCode w (payment_link invoice) with
      | Some qr => (db, respond 200 (JQr qr))
      | None => (db, respond 500 (JError "Failed to generate QR code"))
      end
  end.

(** router.post("/clients") *)
Definition createClient (w : World) (b : Body) (db : Database)
    : Database * Response :=
  match ownerWallet b, name b with
  | Some ow, Some n =>
      if negb (Js.truthy_string ow) || negb (Js.truthy_string n)
      then (db, respond 400 (JError "Owner wallet and name required"))
      else
        let id := nanoid w 10 in
        match clientQueries.create (now w) id ow n (Js.or_null (email b))
                (Js.or_null (wallet b)) db with
        | None => (db, respond 500 (JError "Failed to create client"))
        | Some db' => (db', respond 201 (JClient (clientQueries.getById id db')))
        end
  | _, _ => (db, respond 400 (JError "Owner wallet and name required"))
  end.

(** router.get("/clients") *)
Definition listClients (q : option string) (db : Database) : Database * Response :=
  match q with
  | Some wallet =>
      if Js.truthy_string wallet
      then (db, respond 200 (JClients (clientQueries.getByOwner wallet db)))
      else (db, respond 400 (JError "Wallet address required"))
  | None => (db, respond 400 (JError "Wallet address required"))
  end.

(** A fixed segment of a route matches without regard to case, as the
    routes of [express.Router()] do by default. *)
Definition segment (name s : string) : bool :=
  String.eqb (Js.toLowerCase s) name.

(** The router: the first route, in the order of registration, whose method
    and path match.  GET /clients is registered after GET /:id, which
    matches it first.  [None]: no route of this router matches. *)
Definition router (w : World) (r : Request) (db : Database)
    : option (Database * Response) :=
  match method r, path r with
  | POST, [] => Some (createInvoice w (body r) db)
  | GET, [] => Some (listInvoices w (query_wallet r) db)
  | GET, [id] => Some (getInvoice w id db)
  | POST, [id; s] =>
      if segment "remind" s then Some (remind w id db) else None
  | PATCH, [id; s] =>
      if segment "status" s then Some (patchStatus w id (body r) db) else None
  | GET, [id; s] =>
      if segment "qr" s then Some (getQr w id db) else None
  | POST, [s] =>
      if segment "clients" s then Some (createClient w (body r) db) else None
  | _, _ => None
  end.

(** *** Vocabulary for the properties of the routes *)

(** The status values the data model names. *)
Definition knownStatus (s : option string) : Prop :=
  s = Some "pending" \/ s = Some "paid" \/ s = Some "cancelled"
  \/ s = Some "escrow_funded".

(** The id the create handler gives the next invoice. *)
Definition nextId (w : World) : string :=
  "INV-" ++ Js.toUpperCase (nanoid w 8).

(** The payment link the create handler generates for a body. *)
Definition linkFor (w : World) (b : Body) : option string :=
  SolanaPay.generatePaymentLink (platform w) (env w) (nextId w)
    (default "" (creatorWallet b)) (default 0 (amount b))
    (default "" (tokenMint b)) (memo b).

(** The row the create handler inserts for a body. *)
Definition newRow (w : World) (b : Body) (paymentLink : string) : Invoice :=
  {| Db.id := nextId w;
     Db.creator_wallet := default "" (creatorWallet b);
     Db.client_email := Js.or_null (clientEmail b);
     Db.client_wallet := None;
     Db.amount := default 0 (amount b);
     Db.token_mint := default "" (tokenMint b);
     Db.due_date := default 0 (dueDate b);
     Db.memo := Js.or_null (memo b);
     Db.status := Some "pending";
     Db.created_at := now w;
     Db.paid_at := None;
     Db.tx_signature := None;
     Db.on_chain_address := None;
     Db.payment_link := Some paymentLink;
     Db.milestones := stringify w <$> milestones b;
     Db.reminder_count := 0;
     Db.last_reminder_at := None |}.

(** The invoices a handler leaves are those it found, and possibly more. *)
Definition keepsRows (db db' : Database) : Prop :=
  forall id, is_Some (invoices db !! id) -> is_Some (invoices db' !! id).

(** A field is missing when it is absent, null, or the falsy value of its
    type. *)
Definition missingString (v : option string) : Prop := v = None \/ v = Some "".
Definition missingNumber (v : option Z) : Prop := v = None \/ v = Some 0.

End Routes.

(** ** Lottery settlement (api/src/routes/lottery.ts, not among the sources) *)

Module Lottery.

(** Modelled from the spec: the outcome of a LotteryEntry (won/lost). *)
Inductive Outcome := Won | Lost.

(** Modelled from the spec: the LotteryPool of the data model (balance,
    house edge %, minimum reserve %, max single-win cap %, paused flag);
    the table and its queries are missing from the sources. *)
Record LotteryPool := {
  balance : Z;
  house_edge_pct : Z;
  min_reserve_pct : Z;
  max_win_pct : Z;
  paused : bool
}.

(** Modelled from the spec: the LotteryEntry of the data model (invoice
    reference, client wallet, premium paid, risk percentage, transaction
    signature, outcome, settlement timestamp); an entry is unsettled while
    it has no outcome. *)
Record LotteryEntry := {
  invoice_id : string;
  client_wallet : string;
  premium_paid : Z;
  risk_pct : Z;
  tx_signature : string;
  outcome : option Outcome;
  settled_at : option Z
}.

(** Modelled from the spec: the stores settlement works on: the invoices,
    one pool per token mint, and the entries by id. *)
Record State := {
  db : Db.Database;
  pools : gmap string LotteryPool;
  entries : gmap string LotteryEntry
}.

(** Modelled from the spec: why a settlement "fails closed": a missing
    entry, invoice or pool, or a broken cap or reserve. *)
Inductive Failure :=
| EntryNotFound
| InvoiceNotFound
| PoolNotFound
| ConstraintViolated.

(** Modelled from the spec: what a settlement call answers: the recorded
    outcome with what this call paid out and the house's share of the
    premium, or a failure. *)
Inductive Result :=
| Settled (o : Outcome) (payout : Z) (houseCut : Z)
| Failed (f : Failure).

(** Modelled from the spec: the payout of a settlement call (none on a
    failure). *)
Definition paidOut (r : Result) : Z :=
  match r with
  | Settled _ payout _ => payout
  | Failed _ => 0
  end.

(** Modelled from the spec: the outcome a settlement call reports as
    recorded. *)
Definition recorded (r : Result) : option Outcome :=
  match r with
  | Settled o _ _ => Some o
  | Failed _ => None
  end.

(** Modelled from the spec: "draw a single pseudo-random outcome with
    probability = risk%": the draw is a number in 0..99, and the entry wins
    when it falls below the risk percentage. *)
Definition drawOutcome (draw : Z) (e : LotteryEntry) : Outcome :=
  if draw <? risk_pct e then Won else Lost.

(** Modelled from the spec: "house edge (5%) is retained from premium". *)
Definition houseCut (p : LotteryPool) (e : LotteryEntry) : Z :=
  premium_paid e * house_edge_pct p / 100.

(** Modelled from the spec: "cap any single payout at 10% of pool balance". *)
Definition withinCap (p : LotteryPool) (payout : Z) : bool :=
  payout * 100 <=? balance p * max_win_pct p.

(** Modelled from the spec: "pool must hold at least the minimum reserve
    (20%)": what is left after the payout is at least that share of the
    balance. *)
Definition keepsReserve (p : LotteryPool) (payout : Z) : bool :=
  balance p * min_reserve_pct p <=? (balance p - payout) * 100.

(** Modelled from the spec: the pool after a payout left it. *)
Definition debit (p : LotteryPool) (payout : Z) : LotteryPool :=
  {| balance := balance p - payout;
     house_edge_pct := house_edge_pct p;
     min_reserve_pct := min_reserve_pct p;
     max_win_pct := max_win_pct p;
     paused := paused p |}.

(** Modelled from the spec: the entry with its outcome and settlement
    timestamp recorded. *)
Definition settleEntry (o : Outcome) (at_ : Z) (e : LotteryEntry) : LotteryEntry :=
  {| invoice_id := invoice_id e;
     client_wallet := client_wallet e;
     premium_paid := premium_paid e;
     risk_pct := risk_pct e;
     tx_signature := tx_signature e;
     outcome := Some o;
     settled_at := Some at_ |}.

(** Modelled from the spec: settlement of an entry (section 4.1), the
    handler of POST /v1/spin/settle/:entryId, which is missing from the
    sources.  An entry that has an outcome is answered with that outcome
    and nothing is paid again.  Otherwise one outcome is drawn; a win pays
    the invoice amount out of the pool of the invoice's token mint, unless
    that breaks the cap or the reserve, in which case the settlement fails
    and nothing changes. *)
Definition settle (draw now : Z) (entryId : string) (s : State) : State * Result :=
  match entries s !! entryId with
  | None => (s, Failed EntryNotFound)
  | Some e =>
      match outcome e with
      | Some o => (s, Settled o 0 0)
      | None =>
          match Db.invoices (db s) !! invoice_id e with
          | None => (s, Failed InvoiceNotFound)
          | Some inv =>
              match pools s !! Db.token_mint inv with
              | None => (s, Failed PoolNotFound)
              | Some p =>
                  match drawOutcome draw e with
                  | Lost =>
                      ({| db := db s;
                          pools := pools s;
                          entries := <[entryId := settleEntry Lost now e]> (entries s) |},
                       Settled Lost 0 (houseCut p e))
                  | Won =>
                      let payout := Db.amount inv in
                      if withinCap p payout && keepsReserve p payout
                      then
                        ({| db := db s;
                            pools := <[Db.token_mint inv := debit p payout]> (pools s);
                            entries := <[entryId := settleEntry Won now e]> (entries s) |},
                         Settled Won payout (houseCut p e))
                      else (s, Failed ConstraintViolated)
                  end
              end
          end
      end
  end.

End Lottery.

(** ** Building a payment transaction on the server
    ([createSolanaPayTransaction], api/src/services/solana-pay.ts) *)

Module SolanaPayTx.

Abbreviation Key := (list N).

Definition MEMO_PROGRAM_ID : string := "MemoSq4gqABAXKb96qnH8TysNcWxMyWCqXgDLGmfcHr".

Inductive Instruction :=
| SystemTransfer (fromPubkey toPubkey : Key) (lamports : Z)
| TokenTransfer (source destination owner : Key) (amount : Z)
| Memo (programId : Key) (data : string).

Record Transaction := {
  instructions : list Instruction;
  recentBlockhash : string;
  lastValidBlockHeight : Z;
  feePayer : Key
}.

(** What the function asks of the token library, the RPC node and the
    serializer.  [None] stands for a thrown error or a rejected promise. *)
Record Runtime := {
  getAssociatedTokenAddress : Key -> Key -> option Key;
  getLatestBlockhash : option (string * Z);
  serialize : Transaction -> option string      (* base64 of the wire format *)
}.

(** The unsigned transaction handed to [serialize]; [None] when a
    constructor, a lookup or an instruction encoder throws. *)
Definition buildTransaction (rt : Runtime) (recipient payer : string) (amount : Z)
    (tokenMint invoiceId : string) : option Transaction :=
  recipientPubkey ← PublicKey.new recipient;
  payerPubkey ← PublicKey.new payer;
  transfer ←
    (if String.eqb tokenMint SOL_MINT
     then
       if negb (u64 amount) then None
       else Some (SystemTransfer payerPubkey recipientPubkey amount)
     else
       mintPubkey ← PublicKey.new tokenMint;
       payerAta ← getAssociatedTokenAddress rt mintPubkey payerPubkey;
       recipientAta ← getAssociatedTokenAddress rt mintPubkey recipientPubkey;
       if negb (u64 amount) then None
       else Some (TokenTransfer payerAta recipientAta payerPubkey amount));
  memoProgram ← PublicKey.new MEMO_PROGRAM_ID;
  let memoInstruction := Memo memoProgram ("InvoiceNow:" ++ invoiceId)%string in
  '(blockhash, height) ← getLatestBlockhash rt;
  Some {| instructions := [transfer; memoInstruction];
          recentBlockhash := blockhash;
          lastValidBlockHeight := height;
          feePayer := payerPubkey |}.

Definition createSolanaPayTransaction (rt : Runtime) (recipient payer : string)
    (amount : Z) (tokenMint invoiceId : string) : option string :=
  tx ← buildTransaction rt recipient payer amount tokenMint invoiceId;
  serialize rt tx.

(** The (destination, amount) pairs of the transfers in a transaction. *)
Definition transfer_of (i : Instruction) : option (Key * Z) :=
  match i with
  | SystemTransfer _ to lamports => Some (to, lamports)
  | TokenTransfer _ destination _ amount => Some (destination, amount)
  | Memo _ _ => None
  end.

Definition transfers (tx : Transaction) : list (Key * Z) :=
  omap transfer_of (instructions tx).

End SolanaPayTx.

(** ** The dashboard (app/pages/index.tsx) *)

Module Dashboard.
Import Db.

(** The [filter] state: "all" | "pending" | "paid". *)
Inductive Filter := All | Pending | Paid.

Definition filterName (f : Filter) : string :=
  match f with
  | All => "all"
  | Pending => "pending"
  | Paid => "paid"
  end.

(** [inv.status === s] *)
Definition hasStatus (s : string) (inv : Invoice) : bool :=
  bool_decide (status inv = Some s).

(** [invoices.filter((inv) => filter === "all" ? true : inv.status === filter)] *)
Definition filteredInvoices (f : Filter) (invoices : list Invoice) : list Invoice :=
  List.filter
    (fun inv => match f with
                | All => true
                | _ => hasStatus (filterName f) inv
                end)
    invoices.

(** JavaScript's numbers, as far as the outstanding amount needs them:
    the amounts of the invoices are added as doubles. *)
Record Numbers := {
  number : Type;
  zero : number;
  ofAmount : Z -> number;
  add : number -> number -> number
}.

Record Stats (nb : Numbers) := {
  total : nat;
  pending : nat;
  paid : nat;
  totalPending : number nb
}.
Arguments total {nb} s.
Arguments pending {nb} s.
Arguments paid {nb} s.
Arguments totalPending {nb} s.

Definition stats (nb : Numbers) (invoices : list Invoice) : Stats nb :=
  {| total := length invoices;
     pending := length (List.filter (hasStatus "pending") invoices);
     paid := length (List.filter (hasStatus "paid") invoices);
     totalPending :=
       fold_left (fun sum i => add nb sum (ofAmount nb (amount i)))
         (List.filter (hasStatus "pending") invoices) (zero nb) |}.

(** [invoice.status === "pending" && invoice.client_email]: whether
    [InvoiceRow] renders the reminder button. *)
Definition showsReminderButton (inv : Invoice) : bool :=
  hasStatus "pending" inv && Js.truthy_opt Js.truthy_string (client_email inv).

(** [invoice.memo || "No description"] and [invoice.client_email || "No email"] *)
Definition shownMemo (inv : Invoice) : string :=
  default "No description" (Js.or_null (memo inv)).

Definition shownEmail (inv : Invoice) : string :=
  default "No email" (Js.or_null (client_email inv)).

End Dashboard.

(** ** Runs of the invoice router and what they keep *)

Module Runs.
Import Db Routes.

(** The store after a sequence of requests, each served in the world of its
    moment; a request no route matches leaves the store alone. *)
Fixpoint serve (steps : list (World * Request)) (db : Database) : Database :=
  match steps with
  | [] => db
  | (w, r) :: rest =>
      match router w r db with
      | Some (db', _) => serve rest db'
      | None => serve rest db
      end
  end.

Definition startsWith (prefix s : string) : Prop :=
  exists rest, s = (prefix ++ rest)%string.

(** What holds of every stored invoice, under its key [k], when the links
    are generated on the platform [pf]. *)
Record goodRow (pf : SolanaPay.Platform) (k : string) (row : Invoice) : Prop := {
  good_id : Db.id row = k;
  good_prefix : startsWith "INV-" k;
  good_creator : is_Some (PublicKey.new (creator_wallet row));
  good_amount : Db.amount row <> 0;
  good_mint : token_mint row <> "";
  good_due : due_date row <> 0;
  good_email : client_email row <> Some "";
  good_memo : Db.memo row <> Some "";
  good_link :
    forall env,
      SolanaPay.generatePaymentLink pf env (Db.id row) (creator_wallet row)
        (Db.amount row) (token_mint row) (Db.memo row) = payment_link row;
  good_count : 0 <= reminder_count row;
  good_reminded : last_reminder_at row = None <-> reminder_count row = 0;
  good_paid : is_Some (paid_at row) <-> Db.status row = Some "paid";
  good_signature : tx_signature row <> Some "";
  good_client_wallet : client_wallet row = None;
  good_on_chain : on_chain_address row = None
}.

Record goodClient (k : string) (c : Client) : Prop := {
  good_c_id : c_id c = k;
  good_c_owner : c_owner_wallet c <> "";
  good_c_name : c_name c <> "";
  good_c_email : c_email c <> Some "";
  good_c_wallet : c_wallet c <> Some ""
}.

Definition goodStore (pf : SolanaPay.Platform) (db : Database) : Prop :=
  (forall k row, invoices db !! k = Some row -> goodRow pf k row)
  /\ (forall k c, clients db !! k = Some c -> goodClient k c).

(** The fields of an invoice that no route writes after its creation. *)
Definition sameTerms (row row' : Invoice) : Prop :=
  Db.id row' = Db.id row
  /\ creator_wallet row' = creator_wallet row
  /\ client_email row' = client_email row
  /\ client_wallet row' = client_wallet row
  /\ Db.amount row' = Db.amount row
  /\ token_mint row' = token_mint row
  /\ due_date row' = due_date row
  /\ Db.memo row' = Db.memo row
  /\ created_at row' = created_at row
  /\ on_chain_address row' = on_chain_address row
  /\ payment_link row' = payment_link row
  /\ Db.milestones row' = Db.milestones row.

End Runs.

(** ** Reading a query string *)

Module Query.

(** How often a character occurs in a text. *)
Fixpoint count (c : ascii) (s : string) : nat :=
  match s with
  | EmptyString => O
  | String d r => (if Ascii.eqb c d then 1 else 0) + count c r
  end.

(** The characters [URLSearchParams.toString] lets through or produces. *)
Definition safeChar (c : ascii) : bool :=
  SolanaPay.unreserved (N_of_ascii c)
  || Ascii.eqb c "+"%char || Ascii.eqb c "%"%char.

End Query.

(** ** Sample inputs used to run the definitions *)

Module Sample.
Import PayPage.

(** The system program address: 32 zero bytes. *)
Definition zeroKey : Key := repeat 0%N 32.

(** An invoice of 100 units, payable in SOL. *)
Definition invoice100 : PaymentData :=
  {| id := "INV-AAAAAAAA";
     creatorWallet := "11111111111111111111111111111111";
     amount := 100;
     tokenMint := SOL_MINT;
     dueDate := 1700000000;
     memo := None;
     status := "pending";
     paymentLink := "" |}.

(** A connected wallet holding one SOL, double or nothing chosen. *)
Definition page (pool : option string) : Page :=
  {| data := Some invoice100;
     publicKey := Some zeroKey;
     signTransaction := true;
     poolWalletAddress := pool;
     doubleOrNothing := true;
     walletBalance := Some 1000000000 |}.

(** A node that accepts and confirms every transaction. *)
Definition chain : Chain :=
  {| getAssociatedTokenAddress := fun _ _ => None;
     getAccount := fun _ => false;
     sendRawTransaction := fun _ => Some "5sig";
     confirmedWithin30 := fun _ => true |}.

(** An API that verifies every payment and settles every entry as lost. *)
Definition backend : Backend :=
  {| verifyPayment := fun _ => Some true;
     createLotteryEntry := fun _ => Some "entry-1";
     settleLottery := fun _ => Some false |}.

(** A stand-in for Node's crypto and numbers, to run the service: the digest
    and the key derivation are fixed values, and a number is kept as a
    numerator with a power of ten. *)
Definition platform : SolanaPay.Platform :=
  {| SolanaPay.sha256 := fun _ => repeat 7%N 32;
     SolanaPay.keypairFromSeed := fun seed => seed;
     SolanaPay.number := Z * nat;
     SolanaPay.ofInteger := fun z => (z, O);
     SolanaPay.pow10 := fun k => (1, k);
     SolanaPay.divide := fun a b => (a.1, b.2);
     SolanaPay.numberToString := fun _ => "0.0000001" |}.

(** A stand-in for [JSON.stringify] on milestones whose descriptions need
    no escaping. *)
Definition quote : string := String (Ascii.ascii_of_nat 34) EmptyString.

Definition field (name value : string) : string :=
  (quote ++ name ++ quote ++ ":" ++ value)%string.

Definition object (m : Db.Milestone) : string :=
  ("{" ++ field "description" (quote ++ Db.m_description m ++ quote)
       ++ "," ++ field "amount" (pretty (Db.m_amount m)) ++ "}")%string.

Definition stringify (l : list Db.Milestone) : string :=
  ("[" ++ String.concat "," (map object l) ++ "]")%string.

(** Two milestones of the sample invoice of 100. *)
Definition milestones : list Db.Milestone :=
  [{| Db.m_description := "Draft"; Db.m_amount := 40 |};
   {| Db.m_description := "Final"; Db.m_amount := 60 |}].

(** A stand-in for [JSON.parse]: it knows the text of the sample milestones
    and of the empty list, and throws on any other text. *)
Definition parse (text : string) : option Routes.Parsed :=
  if String.eqb text (stringify milestones)
  then Some (Routes.ParsedMilestones milestones)
  else if String.eqb text "[]" then Some (Routes.ParsedMilestones [])
  else None.

Definition world : Routes.World :=
  {| Routes.platform := platform;
     Routes.env := ∅;
     Routes.now := 1700000000;
     Routes.nanoid := fun _ => "k3Yw_x9Q";
     Routes.sendReminderEmail := fun _ => true;
     Routes.generateQRCode := fun _ => Some "data:image/png;base64,AAAA";
     Routes.stringify := stringify;
     Routes.parse := parse |}.

Definition emptyBody : Routes.Body :=
  {| Routes.creatorWallet := None; Routes.clientEmail := None;
     Routes.amount := None; Routes.tokenMint := None; Routes.dueDate := None;
     Routes.memo := None; Routes.milestones := None; Routes.status := None;
     Routes.txSignature := None; Routes.ownerWallet := None;
     Routes.name := None; Routes.email := None; Routes.wallet := None |}.

(** A complete request body for an invoice of 100 units in SOL. *)
Definition createBody (creator : string) : Routes.Body :=
  {| Routes.creatorWallet := Some creator;
     Routes.clientEmail := Some "client@example.com";
     Routes.amount := Some 100; Routes.tokenMint := Some SOL_MINT;
     Routes.dueDate := Some 1700600000;
     Routes.memo := Some "Design work"; Routes.milestones := None;
     Routes.status := None; Routes.txSignature := None;
     Routes.ownerWallet := None; Routes.name := None; Routes.email := None;
     Routes.wallet := None |}.

(** The same request, with the two milestones. *)
Definition milestonesBody : Routes.Body :=
  {| Routes.creatorWallet := Some "11111111111111111111111111111111";
     Routes.clientEmail := Some "client@example.com";
     Routes.amount := Some 100; Routes.tokenMint := Some SOL_MINT;
     Routes.dueDate := Some 1700600000;
     Routes.memo := Some "Design work"; Routes.milestones := Some milestones;
     Routes.status := None; Routes.txSignature := None;
     Routes.ownerWallet := None; Routes.name := None; Routes.email := None;
     Routes.wallet := None |}.

Definition statusBody (s : string) : Routes.Body :=
  {| Routes.creatorWallet := None; Routes.clientEmail := None;
     Routes.amount := None; Routes.tokenMint := None; Routes.dueDate := None;
     Routes.memo := None; Routes.milestones := None; Routes.status := Some s;
     Routes.txSignature := None; Routes.ownerWallet := None;
     Routes.name := None; Routes.email := None; Routes.wallet := None |}.

Definition emptyDb : Db.Database :=
  {| Db.invoices := ∅; Db.clients := ∅ |}.

(** The store after one invoice was created by the system program address. *)
Definition oneInvoiceDb : Db.Database :=
  (Routes.createInvoice world (createBody "11111111111111111111111111111111") emptyDb).1.

(** A pool with the settings of the specification: 5% house edge, 20%
    minimum reserve, 10% cap on a single win. *)
Definition pool (balance : Z) : Lottery.LotteryPool :=
  {| Lottery.balance := balance;
     Lottery.house_edge_pct := 5;
     Lottery.min_reserve_pct := 20;
     Lottery.max_win_pct := 10;
     Lottery.paused := false |}.

(** The unsettled double-or-nothing entry of the stored invoice. *)
Definition entry : Lottery.LotteryEntry :=
  {| Lottery.invoice_id := "INV-K3YW_X9Q";
     Lottery.client_wallet := "11111111111111111111111111111111";
     Lottery.premium_paid := 100;
     Lottery.risk_pct := 50;
     Lottery.tx_signature := "5sig";
     Lottery.outcome := None;
     Lottery.settled_at := None |}.

(** The stored invoice, its entry, and a SOL pool of the given balance. *)
Definition lottery (balance : Z) : Lottery.State :=
  {| Lottery.db := oneInvoiceDb;
     Lottery.pools := {[ SOL_MINT := pool balance ]};
     Lottery.entries := {[ "entry-1" := entry ]} |}.

(** POST / with the complete body, and GET /:id for the stored invoice. *)
Definition postCreate (creator : string) : Routes.Request :=
  {| Routes.method := Routes.POST; Routes.path := [];
     Routes.query_wallet := None; Routes.body := createBody creator |}.

Definition getStored : Routes.Request :=
  {| Routes.method := Routes.GET; Routes.path := ["INV-K3YW_X9Q"];
     Routes.query_wallet := None; Routes.body := emptyBody |}.

Definition patchStored (s : string) : Routes.Request :=
  {| Routes.method := Routes.PATCH; Routes.path := ["INV-K3YW_X9Q"; "status"];
     Routes.query_wallet := None; Routes.body := statusBody s |}.

(** The link and the row of the stored invoice. *)
Definition storedLink : string :=
  "solana:11111111111111111111111111111111?amount=0.0000001&reference=US517G5965aydkZ46HS38QLi7UQiSojurfbQfKCELFx&label=InvoiceNow&message=Invoice+INV-K3YW_X9Q%3A+Design+work".

Definition storedRow : Db.Invoice :=
  Routes.newRow world (createBody "11111111111111111111111111111111") storedLink.

(** The store and the row after the request with the milestones. *)
Definition milestonesDb : Db.Database :=
  (Routes.createInvoice world milestonesBody emptyDb).1.

Definition milestonesRow : Db.Invoice :=
  Routes.newRow world milestonesBody storedLink.

(** The sample page with the standard payment chosen. *)
Definition standardPage : PayPage.Page :=
  {| PayPage.data := Some invoice100;
     PayPage.publicKey := Some zeroKey;
     PayPage.signTransaction := true;
     PayPage.poolWalletAddress := None;
     PayPage.doubleOrNothing := false;
     PayPage.walletBalance := Some 1000000000 |}.

(** Double or nothing chosen with a balance of exactly twice the invoice. *)
Definition tightPage : PayPage.Page :=
  {| PayPage.data := Some invoice100;
     PayPage.publicKey := Some zeroKey;
     PayPage.signTransaction := true;
     PayPage.poolWalletAddress := None;
     PayPage.doubleOrNothing := true;
     PayPage.walletBalance := Some 200 |}.

(** An API that refuses to verify. *)
Definition refusingBackend : PayPage.Backend :=
  {| PayPage.verifyPayment := fun _ => Some false;
     PayPage.createLotteryEntry := fun _ => Some "entry-1";
     PayPage.settleLottery := fun _ => Some false |}.

(** A server runtime with a fixed block hash and a fixed wire format. *)
Definition runtime : SolanaPayTx.Runtime :=
  {| SolanaPayTx.getAssociatedTokenAddress := fun _ _ => None;
     SolanaPayTx.getLatestBlockhash := Some ("9blockhash", 250000000);
     SolanaPayTx.serialize := fun _ => Some "AQAB" |}.

End Sample.

(** * Properties *)

(** ** The payment page *)

Module PayPageProps.
Import PayPage Sample.

Lemma getPaymentAmount_off (d : PaymentData) :
  getPaymentAmount (Some d) false = amount d.
Proof. reflexivity. Qed.

Lemma getPaymentAmount_on (d : PaymentData) :
  getPaymentAmount (Some d) true = 2 * amount d.
Proof. cbn. lia. Qed.

Lemma transfers_app (a b : list Instruction) :
  transfers (a ++ b) = transfers a ++ transfers b.
Proof. apply omap_app. Qed.

Lemma build_lottery (c : Chain) (p : Page) (pk : Key) (d : PaymentData)
    (tx : list Instruction) :
  buildTransaction c p pk d = Some tx ->
  isLottery p (getPaymentAmount (Some d) (doubleOrNothing p) - amount d) = true ->
  exists recipient pool toCreator toPool,
    PublicKey.new (creatorWallet d) = Some recipient
    /\ poolKey p = Some pool
    /\ payee c d recipient = Some toCreator
    /\ payee c d pool = Some toPool
    /\ transfers tx =
         [(toCreator, amount d);
          (toPool, getPaymentAmount (Some d) (doubleOrNothing p) - amount d)].
Proof.
  unfold buildTransaction, payee. intros Hb Hl. rewrite Hl in Hb.
  destruct (PublicKey.new (creatorWallet d)) as [recipient|]; [|discriminate Hb].
  destruct (PublicKey.new (tokenMint d)) as [mint|]; [|discriminate Hb].
  cbn [mbind option_bind] in Hb |- *.
  destruct (String.eqb (tokenMint d) SOL_MINT).
  - destruct (negb (u64 (amount d))); [discriminate Hb|].
    destruct (poolKey p) as [pool|]; [|discriminate Hb].
    cbn [mbind option_bind] in Hb.
    destruct (negb (u64 _)); [discriminate Hb|]. injection Hb as <-.
    exists recipient, pool, recipient, pool. repeat split.
  - destruct (getAssociatedTokenAddress c mint pk) as [payerAta|]; [|discriminate Hb].
    destruct (getAssociatedTokenAddress c mint recipient) as [recipientAta|] eqn:Hr;
      [|discriminate Hb].
    cbn [mbind option_bind] in Hb.
    destruct (negb (u64 (amount d))); [discriminate Hb|].
    destruct (poolKey p) as [pool|]; [|discriminate Hb].
    cbn [mbind option_bind] in Hb.
    destruct (getAssociatedTokenAddress c mint pool) as [poolAta|] eqn:Hp;
      [|discriminate Hb].
    cbn [mbind option_bind] in Hb.
    destruct (negb (u64 _)); [discriminate Hb|]. injection Hb as <-.
    exists recipient, pool, recipientAta, poolAta.
    repeat split; cbn [mbind option_bind]; try assumption.
    destruct (getAccount c recipientAta), (getAccount c poolAta); reflexivity.
Qed.

Lemma created_entry (c : Chain) (b : Backend) (p : Page) (r : LotteryEntryRequest) :
  In (CreateEntry r) (handlePay c b p) ->
  exists d pk signature,
    data p = Some d /\ publicKey p = Some pk /\ doubleOrNothing p = true
    /\ r = {| e_invoiceId := id d;
              e_clientWallet := PublicKey.toString pk;
              e_premiumPaid := getPaymentAmount (Some d) true - amount d;
              e_riskSlider := 50;
              e_txSignature := signature |}.
Proof.
  unfold handlePay, failed.
  destruct (publicKey p) as [pk|] eqn:Hpk; [|cbn; intuition discriminate].
  destruct (signTransaction p); [|cbn; intuition discriminate].
  destruct (data p) as [d|] eqn:Hd; [|cbn; intuition discriminate].
  destruct (hasEnoughBalance p); cbn [negb]; [|cbn; intuition discriminate].
  destruct (buildTransaction c p pk d) as [tx|]; [|cbn; intuition discriminate].
  destruct (sendRawTransaction c tx) as [signature|]; [|cbn; intuition discriminate].
  destruct (confirmedWithin30 c signature); cbn [negb]; [|cbn; intuition discriminate].
  destruct (doubleOrNothing p) eqn:Hdn.
  - unfold spin, failed. intros Hin.
    exists d, pk, signature. repeat split.
    destruct (verifyPayment b _) as [[|]|]; cbn [In] in Hin;
      try (intuition discriminate).
    destruct (createLotteryEntry b _) as [entryId|]; cbn [In] in Hin.
    + destruct (settleLottery b entryId); cbn [In] in Hin;
        intuition (try discriminate); congruence.
    + intuition (try discriminate); congruence.
  - unfold standard, failed. intros Hin.
    destruct (verifyPayment b _) as [[|]|]; cbn in Hin; intuition discriminate.
Qed.



(** C5, as stated, fails in the double-or-nothing flow when the pool wallet
    address could not be fetched: the transaction carries only the transfer
    of the invoice amount (100) to the creator, while the total payment is
    200 and the entry is still created with a premium of 100. *)
Lemma C5_no_pool_wallet :
  buildTransaction chain (page None) zeroKey invoice100
    = Some [SystemTransfer zeroKey zeroKey 100]
  /\ totalTransferred [SystemTransfer zeroKey zeroKey 100] = 100
  /\ getPaymentAmount (data (page None)) (doubleOrNothing (page None)) = 200
  /\ handlePay chain backend (page None)
     = [Send [SystemTransfer zeroKey zeroKey 100] "5sig";
        Verify {| v_invoiceId := "INV-AAAAAAAA"; v_txSignature := "5sig";
                  v_expectedAmount := Some 100 |};
        CreateEntry {| e_invoiceId := "INV-AAAAAAAA";
                       e_clientWallet := "11111111111111111111111111111111";
                       e_premiumPaid := 100; e_riskSlider := 50;
                       e_txSignature := "5sig" |};
        Settle "entry-1" false;
        Notify (ToastSuccess "Invoice paid!");
        SetStatusPaid].
Proof. repeat split; vm_compute; reflexivity. Qed.

(** C5, amended: when the lottery transfer is made (double or nothing
    chosen, a positive premium, a pool wallet address known), the
    transaction transfers the invoice amount to the creator and the premium
    to the pool wallet, and the two add up to the total payment; and every
    lottery entry the page creates records the premium
    paymentAmount - data.amount. *)
Theorem C5_premium_is_payment_minus_invoice
    (c : Chain) (b : Backend) (p : Page) (pk : Key) (d : PaymentData) :
  publicKey p = Some pk ->
  data p = Some d ->
  let paymentAmount := getPaymentAmount (data p) (doubleOrNothing p) in
  let invoiceAmount := amount d in
  let premiumAmount := paymentAmount - invoiceAmount in
  (forall tx,
      buildTransaction c p pk d = Some tx ->
      isLottery p premiumAmount = true ->
      exists recipient pool toCreator toPool,
        PublicKey.new (creatorWallet d) = Some recipient
        /\ poolKey p = Some pool
        /\ payee c d recipient = Some toCreator
        /\ payee c d pool = Some toPool
        /\ transfers tx = [(toCreator, invoiceAmount); (toPool, premiumAmount)]
        /\ totalTransferred tx = paymentAmount)
  /\ (forall r,
        In (CreateEntry r) (handlePay c b p) ->
        e_premiumPaid r = paymentAmount - amount d).
Proof.
  intros Hpk Hd. cbn zeta. rewrite Hd. split.
  - intros tx Hb Hl.
    destruct (build_lottery c p pk d tx Hb Hl)
      as (recipient & pool & toCreator & toPool & H1 & H2 & H3 & H4 & H5).
    exists recipient, pool, toCreator, toPool.
    repeat split; try assumption.
    unfold totalTransferred. rewrite H5. cbn [foldr snd]. lia.
  - intros r Hin.
    destruct (created_entry c b p r Hin)
      as (d' & pk' & signature & Hd' & _ & Hdn & ->).
    rewrite Hd in Hd'. injection Hd' as <-. rewrite Hdn. reflexivity.
Qed.

(** The amended C5 on the sample page with the pool wallet known: the two
    transfers of 100 add up to the payment of 200, and the entry records a
    premium of 100. *)
Lemma C5_premium_witness :
  totalTransferred
    [SystemTransfer zeroKey zeroKey 100; SystemTransfer zeroKey zeroKey 100] = 200
  /\ e_premiumPaid
       {| e_invoiceId := "INV-AAAAAAAA";
          e_clientWallet := "11111111111111111111111111111111";
          e_premiumPaid := 100; e_riskSlider := 50;
          e_txSignature := "5sig" |} = 200 - 100.
Proof.
  destruct (C5_premium_is_payment_minus_invoice chain backend
              (page (Some "11111111111111111111111111111111")) zeroKey invoice100
              eq_refl eq_refl) as [Htx Hentry].
  split.
  - destruct (Htx [SystemTransfer zeroKey zeroKey 100;
                   SystemTransfer zeroKey zeroKey 100] eq_refl eq_refl)
      as (_ & _ & _ & _ & _ & _ & _ & _ & _ & Htotal).
    exact Htotal.
  - apply Hentry. vm_compute. right. right. left. reflexivity.
Defined.

(** The runs of [handlePay], case by case. *)
Lemma handlePay_cases (c : Chain) (b : Backend) (p : Page) :
  (exists msg, handlePay c b p = [Notify (ToastError msg)])
  \/ exists pk d tx signature rest,
       publicKey p = Some pk /\ signTransaction p = true /\ data p = Some d
       /\ hasEnoughBalance p = true
       /\ buildTransaction c p pk d = Some tx
       /\ sendRawTransaction c tx = Some signature
       /\ handlePay c b p = Send tx signature :: rest
       /\ ((confirmedWithin30 c signature = false
            /\ rest = [Notify (ToastError (Some "Transaction confirmation timeout"))])
           \/ (confirmedWithin30 c signature = true
               /\ rest = if doubleOrNothing p
                         then spin b pk d (getPaymentAmount (data p) (doubleOrNothing p))
                                signature
                         else standard b d signature)).
Proof.
  unfold handlePay, failed.
  destruct (publicKey p) as [pk|]; [|eauto].
  destruct (signTransaction p); [|eauto].
  destruct (data p) as [d|] eqn:Hd; [|eauto].
  destruct (hasEnoughBalance p); cbn [negb]; [|eauto].
  destruct (buildTransaction c p pk d) as [tx|] eqn:Hb; [|eauto].
  destruct (sendRawTransaction c tx) as [signature|] eqn:Hs; [|eauto].
  right. exists pk, d, tx, signature.
  destruct (confirmedWithin30 c signature); cbn [negb];
    eexists; repeat split; eauto.
Qed.

(** C6, as stated, fails when the pool wallet address is not known: the
    double-or-nothing run creates the entry with riskSlider 50 after sending
    a transaction that transfers the invoice amount (100) only, not twice
    it. *)
Lemma C6_entry_without_stake :
  hd_error (handlePay chain backend (page None))
    = Some (Send [SystemTransfer zeroKey zeroKey 100] "5sig")
  /\ In (CreateEntry {| e_invoiceId := "INV-AAAAAAAA";
                        e_clientWallet := "11111111111111111111111111111111";
                        e_premiumPaid := 100; e_riskSlider := 50;
                        e_txSignature := "5sig" |})
        (handlePay chain backend (page None))
  /\ totalTransferred [SystemTransfer zeroKey zeroKey 100] = 100
  /\ 2 * amount invoice100 = 200.
Proof.
  split; [vm_compute; reflexivity|]. split; [|split; vm_compute; reflexivity].
  vm_compute. right. right. left. reflexivity.
Qed.

(** C6, amended: every lottery entry the double-or-nothing flow creates
    carries riskSlider = 50 and a premium equal to the invoice amount, for a
    payment amount (getPaymentAmount) of exactly twice the invoice amount;
    the entry carries the signature of the transaction the run sent first,
    and that transaction transfers exactly twice the invoice amount whenever
    the lottery transfer is made (a positive amount and a pool wallet
    address known). *)
Theorem C6_double_or_nothing_fixed_risk
    (c : Chain) (b : Backend) (p : Page) (r : LotteryEntryRequest) :
  In (CreateEntry r) (handlePay c b p) ->
  e_riskSlider r = 50
  /\ doubleOrNothing p = true
  /\ exists pk d tx signature,
       publicKey p = Some pk
       /\ data p = Some d
       /\ getPaymentAmount (data p) (doubleOrNothing p) = 2 * amount d
       /\ e_premiumPaid r = amount d
       /\ buildTransaction c p pk d = Some tx
       /\ hd_error (handlePay c b p) = Some (Send tx signature)
       /\ e_txSignature r = signature
       /\ (isLottery p (amount d) = true -> totalTransferred tx = 2 * amount d).
Proof.
  intros Hin.
  destruct (created_entry c b p r Hin)
    as (d & pk & signature & Hd & Hpk & Hdn & ->).
  split; [reflexivity|]. split; [exact Hdn|].
  destruct (handlePay_cases c b p)
    as [[msg Hrun]|(pk' & d' & tx & signature' & rest & Hpk' & _ & Hd' & _ & Hb
                    & _ & Hrun & Hrest)];
    rewrite Hrun in Hin.
  { destruct Hin as [H|[]]. discriminate H. }
  rewrite Hpk in Hpk'. injection Hpk' as <-. rewrite Hd in Hd'. injection Hd' as <-.
  assert (Hsig : signature = signature').
  { destruct Hin as [H|Hin]; [discriminate H|].
    destruct Hrest as [[_ ->]|[_ ->]]; [destruct Hin as [H|[]]; discriminate H|].
    rewrite Hdn in Hin. unfold spin, failed in Hin.
    destruct (verifyPayment b _) as [[|]|]; cbn [In] in Hin;
      try (exfalso; intuition discriminate).
    destruct (createLotteryEntry b _) as [entryId|]; cbn [In] in Hin.
    - destruct (settleLottery b entryId); cbn [In] in Hin;
        destruct Hin as [H|[H|Hin]]; try discriminate H;
        try (exfalso; intuition discriminate); injection H as _ H; congruence.
    - destruct Hin as [H|[H|Hin]]; try discriminate H;
        try (exfalso; intuition discriminate). injection H as _ H. congruence. }
  subst signature'.
  exists pk, d, tx, signature. rewrite Hrun, Hd, Hdn. cbn [getPaymentAmount e_premiumPaid e_txSignature hd_error].
  repeat (split; [first [assumption|reflexivity|lia]|]).
  intros Hl.
  assert (Hl' : isLottery p (getPaymentAmount (Some d) (doubleOrNothing p) - amount d)
                = true).
  { rewrite Hdn. cbn [getPaymentAmount].
    replace (amount d * 2 - amount d) with (amount d) by lia. exact Hl. }
  destruct (build_lottery c p pk d tx Hb Hl')
    as (recipient & pool & toCreator & toPool & _ & _ & _ & _ & Htr).
  unfold totalTransferred. rewrite Htr, Hdn. cbn [foldr snd getPaymentAmount]. lia.
Qed.

(** The amended C6 on the sample page with the pool wallet known: the entry
    has riskSlider 50 and the transaction sent transfers 200 for the invoice
    of 100. *)
Lemma C6_fixed_risk_witness :
  e_riskSlider
    {| e_invoiceId := "INV-AAAAAAAA";
       e_clientWallet := "11111111111111111111111111111111";
       e_premiumPaid := 100; e_riskSlider := 50;
       e_txSignature := "5sig" |} = 50
  /\ totalTransferred
       [SystemTransfer zeroKey zeroKey 100; SystemTransfer zeroKey zeroKey 100]
     = 2 * 100.
Proof.
  destruct (C6_double_or_nothing_fixed_risk chain backend
              (page (Some "11111111111111111111111111111111"))
              {| e_invoiceId := "INV-AAAAAAAA";
                 e_clientWallet := "11111111111111111111111111111111";
                 e_premiumPaid := 100; e_riskSlider := 50;
                 e_txSignature := "5sig" |})
    as (Hrisk & _ & pk & d & tx & signature & Hpk & Hd & _ & _ & Hb & _ & _ & Htotal).
  - vm_compute. right. right. left. reflexivity.
  - split; [exact Hrisk|].
    injection Hpk as <-. injection Hd as <-.
    vm_compute in Hb. injection Hb as <-.
    apply Htotal. vm_compute. reflexivity.
Defined.

End PayPageProps.

(** ** The invoice routes *)

Module RoutesProps.
Import Sample Routes Db.

Lemma createInvoice_missing (w : World) (b : Body) (db : Database) :
  missingRequired b = true ->
  createInvoice w b db = (db, respond 400 (JError "Missing required fields")).
Proof. intros H. unfold createInvoice. rewrite H. reflexivity. Qed.

Lemma createInvoice_created (w : World) (b : Body) (db : Database) (link : string) :
  missingRequired b = false ->
  linkFor w b = Some link ->
  invoices db !! nextId w = None ->
  createInvoice w b db =
    (with_invoices db (<[nextId w := newRow w b link]> (invoices db)),
     respond 201
       (JCreated (Some (newRow w b link)) link ("/pay/" ++ nextId w ++ "/qr"))).
Proof.
  intros Hm Hl Hfree. unfold createInvoice, linkFor, nextId in *.
  rewrite Hm. cbn zeta. rewrite Hl.
  unfold invoiceQueries.create. rewrite Hfree.
  unfold invoiceQueries.getById, with_invoices. cbn [invoices].
  rewrite lookup_insert_eq. reflexivity.
Qed.

Lemma createInvoice_failed (w : World) (b : Body) (db : Database) :
  missingRequired b = false ->
  linkFor w b = None \/ is_Some (invoices db !! nextId w) ->
  createInvoice w b db = (db, respond 500 (JError "Failed to create invoice")).
Proof.
  intros Hm Hf. unfold createInvoice, linkFor, nextId in *.
  rewrite Hm. cbn zeta.
  destruct (SolanaPay.generatePaymentLink _ _ _ _ _ _ _) as [link|]; [|reflexivity].
  destruct Hf as [Hf|[row Hrow]]; [discriminate|].
  unfold invoiceQueries.create. rewrite Hrow. reflexivity.
Qed.

Lemma keepsRows_refl (db : Database) : keepsRows db db.
Proof. intros id H. exact H. Qed.

Lemma keepsRows_alter (f : Invoice -> Invoice) (k : string) (db : Database) :
  keepsRows db (with_invoices db (alter f k (invoices db))).
Proof.
  intros id [row Hrow]. unfold with_invoices. cbn [invoices].
  destruct (decide (k = id)) as [->|Hne].
  - rewrite lookup_alter_eq, Hrow. eexists. reflexivity.
  - rewrite lookup_alter_ne by assumption. rewrite Hrow. eexists. reflexivity.
Qed.

Lemma keepsRows_insert (k : string) (row : Invoice) (db : Database) :
  keepsRows db (with_invoices db (<[k := row]> (invoices db))).
Proof.
  intros id [r Hr]. unfold with_invoices. cbn [invoices].
  destruct (decide (k = id)) as [->|Hne].
  - rewrite lookup_insert_eq. eexists. reflexivity.
  - rewrite lookup_insert_ne by assumption. rewrite Hr. eexists. reflexivity.
Qed.

Lemma createInvoice_keepsRows (w : World) (b : Body) (db : Database) :
  keepsRows db (createInvoice w b db).1.
Proof.
  unfold createInvoice.
  destruct (missingRequired b); [apply keepsRows_refl|]. cbn zeta.
  destruct (SolanaPay.generatePaymentLink _ _ _ _ _ _ _); [|apply keepsRows_refl].
  unfold invoiceQueries.create.
  destruct (invoices db !! _); [apply keepsRows_refl|].
  apply keepsRows_insert.
Qed.

Lemma remind_keepsRows (w : World) (id : string) (db : Database) :
  keepsRows db (remind w id db).1.
Proof.
  unfold remind.
  destruct (invoiceQueries.getById id db) as [inv|]; [|apply keepsRows_refl].
  destruct (negb _); [apply keepsRows_refl|].
  destruct (negb _); [apply keepsRows_refl|].
  destruct (sendReminderEmail w inv); [|apply keepsRows_refl].
  apply keepsRows_alter.
Qed.

Lemma patchStatus_keepsRows (w : World) (id : string) (b : Body) (db : Database) :
  keepsRows db (patchStatus w id b db).1.
Proof.
  unfold patchStatus.
  destruct (invoiceQueries.getById id db); [|apply keepsRows_refl].
  apply keepsRows_alter.
Qed.

Lemma createClient_keepsRows (w : World) (b : Body) (db : Database) :
  keepsRows db (createClient w b db).1.
Proof.
  unfold createClient.
  destruct (ownerWallet b); [|apply keepsRows_refl].
  destruct (name b); [|apply keepsRows_refl].
  destruct (_ || _); [apply keepsRows_refl|].
  unfold clientQueries.create.
  destruct (clients db !! _); [apply keepsRows_refl|].
  intros id H. exact H.
Qed.

Lemma listInvoices_keepsRows (w : World) (q : option string) (db : Database) :
  keepsRows db (listInvoices w q db).1.
Proof.
  unfold listInvoices. destruct q as [q|]; [|apply keepsRows_refl].
  destruct (Js.truthy_string q); [|apply keepsRows_refl].
  cbn zeta. destruct (bool_decide _); apply keepsRows_refl.
Qed.

Lemma getInvoice_keepsRows (w : World) (id : string) (db : Database) :
  keepsRows db (getInvoice w id db).1.
Proof.
  unfold getInvoice. destruct (invoiceQueries.getById id db) as [inv|];
    [|apply keepsRows_refl].
  destruct (parsed w inv); apply keepsRows_refl.
Qed.

Lemma getQr_keepsRows (w : World) (id : string) (db : Database) :
  keepsRows db (getQr w id db).1.
Proof.
  unfold getQr. destruct (invoiceQueries.getById id db) as [inv|]; [|apply keepsRows_refl].
  destruct (generateQRCode w _); apply keepsRows_refl.
Qed.

Lemma router_keepsRows (w : World) (r : Request) (db db' : Database) (resp : Response) :
  router w r db = Some (db', resp) -> keepsRows db db'.
Proof.
  unfold router. intros H.
  repeat case_match; try discriminate;
    injection H as H; apply (f_equal fst) in H; cbn [fst] in H; rewrite <- H;
    auto using createInvoice_keepsRows, listInvoices_keepsRows,
      getInvoice_keepsRows, remind_keepsRows, patchStatus_keepsRows,
      getQr_keepsRows, createClient_keepsRows.
Qed.

Lemma truthy_string_false (v : option string) :
  Js.truthy_opt Js.truthy_string v = false <-> missingString v.
Proof.
  unfold missingString. destruct v as [s|]; cbn; [|tauto].
  unfold Js.truthy_string. rewrite negb_false_iff, String.eqb_eq.
  split; [intros ->; auto | intros [H|H]; congruence].
Qed.

Lemma truthy_number_false (v : option Z) :
  Js.truthy_opt Js.truthy_number v = false <-> missingNumber v.
Proof.
  unfold missingNumber. destruct v as [z|]; cbn; [|tauto].
  unfold Js.truthy_number. rewrite negb_false_iff, Z.eqb_eq.
  split; [intros ->; auto | intros [H|H]; congruence].
Qed.

Lemma missingRequired_iff (b : Body) :
  missingRequired b = true <->
  missingString (creatorWallet b) \/ missingNumber (Routes.amount b)
  \/ missingString (tokenMint b) \/ missingNumber (dueDate b).
Proof.
  unfold missingRequired.
  rewrite !orb_true_iff, !negb_true_iff,
    !truthy_string_false, !truthy_number_false.
  tauto.
Qed.

Lemma linkFor_None (w : World) (b : Body) :
  linkFor w b = None <-> PublicKey.new (default "" (creatorWallet b)) = None.
Proof.
  unfold linkFor, SolanaPay.generatePaymentLink.
  destruct (PublicKey.new _); cbn; split; congruence.
Qed.

(** C4, as stated, fails: PATCH /:id/status on the stored invoice with
    status "bogus" in the body answers success and stores "bogus", which is
    none of pending, paid, cancelled, escrow_funded. *)
Lemma C4_patch_stores_any_status :
  (snd <$> router world
     {| method := PATCH; path := ["INV-K3YW_X9Q"; "status"];
        query_wallet := None; body := statusBody "bogus" |} oneInvoiceDb)
    = Some (respond 200 (JSuccess None))
  /\ (status <$>
        invoices (patchStatus world "INV-K3YW_X9Q" (statusBody "bogus") oneInvoiceDb).1
          !! "INV-K3YW_X9Q") = Some (Some "bogus")
  /\ ~ knownStatus (Some "bogus").
Proof.
  split; [vm_compute; reflexivity|].
  split; [vm_compute; reflexivity|].
  unfold knownStatus. intros [H|[H|[H|H]]]; discriminate.
Qed.

(** C4, amended: every invoice the create handler inserts has status
    pending; no operation of the invoice API removes an invoice row; and
    PATCH /:id/status stores the status of the request body as it is,
    without checking it against pending, paid, cancelled, escrow_funded. *)
Theorem C4_status_pending_kept_rows (w : World) :
  (forall b db id row,
      invoices db !! id = None ->
      invoices (createInvoice w b db).1 !! id = Some row ->
      status row = Some "pending")
  /\ (forall r db db' resp,
        router w r db = Some (db', resp) -> keepsRows db db')
  /\ (forall id b db,
        is_Some (invoices db !! id) ->
        (patchStatus w id b db).2 = respond 200 (JSuccess None)
        /\ (status <$> invoices (patchStatus w id b db).1 !! id)
           = Some (Routes.status b)).
Proof.
  split; [|split].
  - intros b db id row Hnone Hrow. unfold createInvoice in Hrow.
    destruct (missingRequired b); [cbn in Hrow; congruence|]. cbn zeta in Hrow.
    destruct (SolanaPay.generatePaymentLink _ _ _ _ _ _ _);
      [|cbn in Hrow; congruence].
    unfold invoiceQueries.create in Hrow.
    destruct (invoices db !! String.append _ _) eqn:Hid; [cbn in Hrow; congruence|].
    cbn [fst with_invoices invoices] in Hrow.
    apply lookup_insert_Some in Hrow as [[_ <-]|[_ Hrow]]; [reflexivity|congruence].
  - apply router_keepsRows.
  - intros id b db [row Hrow]. unfold patchStatus, invoiceQueries.getById.
    rewrite Hrow. split; [reflexivity|].
    cbn [fst]. unfold invoiceQueries.updateStatus, with_invoices. cbn [invoices].
    rewrite lookup_alter_eq, Hrow. reflexivity.
Qed.

(** The amended C4 on the sample store: the created invoice is pending,
    and PATCH with status "paid" stores "paid". *)
Lemma C4_status_witness :
  (status <$> invoices oneInvoiceDb !! "INV-K3YW_X9Q") = Some (Some "pending")
  /\ (status <$>
        invoices (patchStatus world "INV-K3YW_X9Q" (statusBody "paid") oneInvoiceDb).1
          !! "INV-K3YW_X9Q") = Some (Some "paid").
Proof.
  destruct (C4_status_pending_kept_rows world) as (Hnew & _ & Hpatch).
  split.
  - destruct (invoices oneInvoiceDb !! "INV-K3YW_X9Q") as [row|] eqn:Hrow;
      [|vm_compute in Hrow; discriminate].
    cbn [fmap option_fmap option_map]. f_equal.
    apply (Hnew (createBody "11111111111111111111111111111111") emptyDb
             "INV-K3YW_X9Q" row); [reflexivity|exact Hrow].
  - apply Hpatch. vm_compute. eexists. reflexivity.
Defined.

(** C7, as stated, fails: with all four fields present and a creatorWallet
    that is not a base58 public key, the handler answers 500 and inserts
    nothing. *)
Lemma C7_invalid_wallet_is_500 :
  missingRequired (createBody "not-a-wallet") = false
  /\ createInvoice world (createBody "not-a-wallet") emptyDb
     = (emptyDb, respond 500 (JError "Failed to create invoice")).
Proof. split; vm_compute; reflexivity. Qed.

(** C7, amended: creating an invoice answers 400 with a JSON error and
    inserts nothing whenever creatorWallet, amount, tokenMint or dueDate is
    missing (falsy); when all are present, creatorWallet is a base58 public
    key and the new id is free, it inserts exactly one row and answers 201
    with the stored invoice and its payment link; when all are present and
    the payment link cannot be generated or the id is taken, it answers 500
    with a JSON error and inserts nothing. *)
Theorem C7_create_invoice (w : World) (b : Body) (db : Database) :
  (missingString (creatorWallet b) \/ missingNumber (Routes.amount b)
   \/ missingString (tokenMint b) \/ missingNumber (dueDate b) ->
   createInvoice w b db = (db, respond 400 (JError "Missing required fields")))
  /\ (missingRequired b = false ->
      forall link,
        linkFor w b = Some link ->
        invoices db !! nextId w = None ->
        createInvoice w b db =
          (with_invoices db (<[nextId w := newRow w b link]> (invoices db)),
           respond 201
             (JCreated (Some (newRow w b link)) link ("/pay/" ++ nextId w ++ "/qr")))
        /\ size (invoices (createInvoice w b db).1) = S (size (invoices db))
        /\ clients (createInvoice w b db).1 = clients db)
  /\ (missingRequired b = false ->
      PublicKey.new (default "" (creatorWallet b)) = None
      \/ is_Some (invoices db !! nextId w) ->
      createInvoice w b db = (db, respond 500 (JError "Failed to create invoice"))).
Proof.
  split; [|split].
  - intros H. apply createInvoice_missing, missingRequired_iff, H.
  - intros Hm link Hl Hfree.
    rewrite (createInvoice_created w b db link Hm Hl Hfree).
    split; [reflexivity|]. cbn [fst with_invoices invoices clients].
    split; [|reflexivity]. apply map_size_insert_None, Hfree.
  - intros Hm Hf. apply createInvoice_failed; [assumption|].
    destruct Hf as [Hf|Hf]; [left; apply linkFor_None, Hf|right; exact Hf].
Qed.

(** C7 on the sample world: a body without creatorWallet is answered 400,
    and the complete body inserts one row into the empty store. *)
Lemma C7_create_invoice_witness :
  createInvoice world emptyBody emptyDb
    = (emptyDb, respond 400 (JError "Missing required fields"))
  /\ size (invoices
             (createInvoice world (createBody "11111111111111111111111111111111")
                emptyDb).1) = 1%nat.
Proof.
  split.
  - apply (C7_create_invoice world emptyBody emptyDb). left. left. reflexivity.
  - destruct (C7_create_invoice world
                (createBody "11111111111111111111111111111111") emptyDb)
      as (_ & Hok & _).
    destruct (Hok eq_refl _ eq_refl eq_refl) as (_ & Hsize & _).
    exact Hsize.
Defined.

(** C8: a reminder succeeds only for an existing pending invoice with a
    client e-mail; when one of the three fails the handler answers 404 or
    400 with a JSON error and changes nothing; on success reminder_count
    grows by exactly 1, last_reminder_at is set, and no other field of the
    invoice and no other row changes. *)
Theorem C8_remind (w : World) (id : string) (db : Database) :
  let eligible (row : Invoice) :=
    status row = Some "pending" /\ ~ missingString (client_email row) in
  ((remind w id db).2 = respond 200 (JSuccess (Some "Reminder sent")) \/
   exists c msg, (remind w id db).2 = respond c (JError msg)
                 /\ (c = 404 \/ c = 400 \/ c = 500) /\ (remind w id db).1 = db)
  /\ (~ (exists row, invoices db !! id = Some row /\ eligible row) ->
      exists c msg, (remind w id db).2 = respond c (JError msg)
                    /\ (c = 404 \/ c = 400) /\ (remind w id db).1 = db)
  /\ (code (remind w id db).2 = 200 ->
      exists row row',
        invoices db !! id = Some row /\ eligible row
        /\ sendReminderEmail w row = true
        /\ invoices (remind w id db).1 = <[id := row']> (invoices db)
        /\ clients (remind w id db).1 = clients db
        /\ reminder_count row' = reminder_count row + 1
        /\ last_reminder_at row' = Some (now w)
        /\ Db.id row' = Db.id row
        /\ creator_wallet row' = creator_wallet row
        /\ client_email row' = client_email row
        /\ client_wallet row' = client_wallet row
        /\ amount row' = amount row
        /\ token_mint row' = token_mint row
        /\ due_date row' = due_date row
        /\ memo row' = memo row
        /\ status row' = status row
        /\ created_at row' = created_at row
        /\ paid_at row' = paid_at row
        /\ tx_signature row' = tx_signature row
        /\ on_chain_address row' = on_chain_address row
        /\ payment_link row' = payment_link row
        /\ milestones row' = milestones row).
Proof.
  cbn zeta. unfold remind, invoiceQueries.getById.
  destruct (invoices db !! id) as [row|] eqn:Hrow.
  2:{ split; [|split].
      - right. exists 404, "Invoice not found". cbn. auto.
      - intros _. exists 404, "Invoice not found". cbn. auto.
      - cbn. discriminate. }
  destruct (bool_decide (status row = Some "pending")) eqn:Hst; cbn [negb].
  2:{ apply bool_decide_eq_false in Hst. split; [|split].
      - right. exists 400, "Invoice is not pending". cbn. auto.
      - intros _. exists 400, "Invoice is not pending". cbn. auto.
      - cbn. discriminate. }
  apply bool_decide_eq_true in Hst.
  destruct (Js.truthy_opt Js.truthy_string (client_email row)) eqn:Hem; cbn [negb].
  2:{ split; [|split].
      - right. exists 400, "No client email on invoice". cbn. auto.
      - intros _. exists 400, "No client email on invoice". cbn. auto.
      - cbn. discriminate. }
  assert (Hne : ~ missingString (client_email row)).
  { intros H. apply truthy_string_false in H. congruence. }
  destruct (sendReminderEmail w row) eqn:Hsend.
  - split; [|split].
    + left. reflexivity.
    + intros H. exfalso. apply H. exists row. auto.
    + intros _. exists row, (invoiceQueries.bump_reminder (now w) row).
      cbn [fst]. unfold invoiceQueries.updateReminder, with_invoices.
      cbn [invoices clients].
      repeat split; try assumption; try reflexivity.
      apply map_eq. intros k. destruct (decide (id = k)) as [<-|Hk].
      * rewrite lookup_alter_eq, lookup_insert_eq, Hrow. reflexivity.
      * rewrite lookup_alter_ne, lookup_insert_ne by assumption. reflexivity.
  - split; [|split].
    + right. exists 500, "Failed to send reminder". cbn. auto.
    + intros H. exfalso. apply H. exists row. auto.
    + cbn. discriminate.
Qed.

(** C8 on the sample store: the reminder for the stored invoice succeeds
    and its count goes from 0 to 1; for an unknown id the answer is 404. *)
Lemma C8_remind_witness :
  (exists row row',
      invoices oneInvoiceDb !! "INV-K3YW_X9Q" = Some row
      /\ invoices (remind world "INV-K3YW_X9Q" oneInvoiceDb).1
         = <["INV-K3YW_X9Q" := row']> (invoices oneInvoiceDb)
      /\ reminder_count row = 0
      /\ reminder_count row' = 1
      /\ last_reminder_at row' = Some 1700000000)
  /\ (exists c msg,
        (remind world "INV-UNKNOWN" oneInvoiceDb).2 = respond c (JError msg)
        /\ (c = 404 \/ c = 400)
        /\ (remind world "INV-UNKNOWN" oneInvoiceDb).1 = oneInvoiceDb).
Proof.
  split.
  - destruct (C8_remind world "INV-K3YW_X9Q" oneInvoiceDb) as (_ & _ & Hok).
    destruct (Hok eq_refl)
      as (row & row' & Hrow & _ & _ & Hdb & _ & Hcount & Hat & _).
    exists row, row'. repeat split; try assumption.
    + vm_compute in Hrow. injection Hrow as <-. reflexivity.
    + rewrite Hcount. vm_compute in Hrow. injection Hrow as <-. reflexivity.
  - destruct (C8_remind world "INV-UNKNOWN" oneInvoiceDb) as (_ & Hno & _).
    apply Hno. intros (row & Hrow & _). vm_compute in Hrow. discriminate.
Defined.

End RoutesProps.

(** ** The Solana Pay service *)

Module SolanaPayProps.
Import SolanaPay.

Lemma get_reference (pf : Platform) (invoiceId : string) (amount : Z)
    (tokenMint : string) (memo : option string) :
  get "reference" (linkParams pf invoiceId amount tokenMint memo)
  = Some (PublicKey.toString (keypairFromSeed pf (sha256 pf invoiceId))).
Proof.
  unfold linkParams, reference.
  destruct (negb (String.eqb tokenMint SOL_MINT)); reflexivity.
Qed.

Lemma get_amount (pf : Platform) (invoiceId : string) (amount : Z)
    (tokenMint : string) (memo : option string) :
  get "amount" (linkParams pf invoiceId amount tokenMint memo)
  = Some (numberToString pf
            (divide pf (ofInteger pf amount)
               (pow10 pf (if String.eqb tokenMint SOL_MINT then 9%nat else 6%nat)))).
Proof. reflexivity. Qed.

Lemma append_assoc (a b c : string) : ((a ++ b) ++ c)%string = (a ++ (b ++ c))%string.
Proof.
  induction a as [|x a IH]; [reflexivity|].
  change (String x ((a ++ b) ++ c)%string = String x (a ++ (b ++ c))%string).
  rewrite IH. reflexivity.
Qed.

Lemma serialize_reference (pf : Platform) (invoiceId : string) (amount : Z)
    (tokenMint : string) (memo : option string) :
  exists before after,
    serialize (linkParams pf invoiceId amount tokenMint memo)
    = (before ++ "&reference="
       ++ urlencode (PublicKey.toString (keypairFromSeed pf (sha256 pf invoiceId)))
       ++ "&label=InvoiceNow&message=" ++ after)%string.
Proof.
  unfold linkParams, reference.
  destruct (negb (String.eqb tokenMint SOL_MINT)).
  - eexists (encodePair ("amount", _) ++ "&" ++ encodePair ("spl-token", tokenMint))%string.
    eexists. cbn [app serialize]. unfold encodePair at 3 4 5. cbn [fst snd].
    rewrite !append_assoc. cbn. reflexivity.
  - eexists (encodePair ("amount", _)). eexists.
    cbn [app serialize]. unfold encodePair at 2 3 4. cbn [fst snd].
    rewrite !append_assoc. cbn. reflexivity.
Qed.

(** C9: verifyPayment always answers a boolean; the answer does not depend
    on expectedRecipient, expectedAmount or expectedMint; it is true exactly
    for a transaction that was found, has metadata and no on-chain error,
    and false when the lookup throws, finds nothing, or finds a transaction
    without metadata or with an error. *)
Theorem C9_verifyPayment
    (getTransaction : string -> Awaited (option TransactionResponse))
    (signature : string)
    (expectedRecipient expectedRecipient' : string)
    (expectedAmount expectedAmount' : Z)
    (expectedMint expectedMint' : string) :
  let answer :=
    verifyPayment getTransaction signature expectedRecipient expectedAmount
      expectedMint in
  answer = verifyPayment getTransaction signature expectedRecipient'
             expectedAmount' expectedMint'
  /\ (answer = true <->
      exists tx m, getTransaction signature = Resolved (Some tx)
                   /\ meta tx = Some m /\ err m = None)
  /\ (getTransaction signature = Rejected -> answer = false)
  /\ (getTransaction signature = Resolved None -> answer = false)
  /\ (forall tx, getTransaction signature = Resolved (Some tx) ->
                 meta tx = None -> answer = false)
  /\ (forall tx m e, getTransaction signature = Resolved (Some tx) ->
                     meta tx = Some m -> err m = Some e -> answer = false).
Proof.
  cbn zeta. unfold verifyPayment.
  destruct (getTransaction signature) as [[tx|]|].
  - destruct (meta tx) as [m|] eqn:Hm.
    + destruct (err m) as [e|] eqn:He.
      * repeat split; try reflexivity; try discriminate.
        intros (tx' & m' & Htx & Hm' & He'). congruence.
      * repeat split; try discriminate.
        -- intros _. exists tx, m. auto.
        -- intros tx' Htx. congruence.
        -- intros tx' m' e Htx Hm' He'. congruence.
    + repeat split; try reflexivity; try discriminate.
      intros (tx' & m' & Htx & Hm' & He'). congruence.
  - repeat split; try reflexivity; try discriminate.
    intros (tx' & m' & Htx & _). discriminate.
  - repeat split; try reflexivity; try discriminate.
    intros (tx' & m' & Htx & _). discriminate.
Qed.

(** C10: generatePaymentLink is deterministic: the link does not depend on
    the process environment, the only state the function reads besides its
    arguments; the reference in the link is the public key derived from the
    SHA-256 digest of the invoice id, whatever the other arguments are; and
    the amount parameter is the amount divided by 10^9 for the SOL mint and
    by 10^6 for any other mint. *)
Theorem C10_generatePaymentLink_deterministic
    (pf : Platform) (env env' : gmap string string)
    (invoiceId recipient : string) (amount : Z) (tokenMint : string)
    (memo : option string)
    (amount' : Z) (tokenMint' : string) (memo' : option string) :
  generatePaymentLink pf env invoiceId recipient amount tokenMint memo
  = generatePaymentLink pf env' invoiceId recipient amount tokenMint memo
  /\ generatePaymentLink pf env invoiceId recipient amount tokenMint memo
     = (key ← PublicKey.new recipient;
        Some ("solana:" ++ PublicKey.toString key ++ "?"
              ++ serialize (linkParams pf invoiceId amount tokenMint memo))%string)
  /\ (exists before after,
        serialize (linkParams pf invoiceId amount tokenMint memo)
        = (before ++ "&reference="
           ++ urlencode (PublicKey.toString (keypairFromSeed pf (sha256 pf invoiceId)))
           ++ "&label=InvoiceNow&message=" ++ after)%string)
  /\ get "reference" (linkParams pf invoiceId amount tokenMint memo)
     = Some (PublicKey.toString (keypairFromSeed pf (sha256 pf invoiceId)))
  /\ get "reference" (linkParams pf invoiceId amount tokenMint memo)
     = get "reference" (linkParams pf invoiceId amount' tokenMint' memo')
  /\ (tokenMint = SOL_MINT ->
      get "amount" (linkParams pf invoiceId amount tokenMint memo)
      = Some (numberToString pf (divide pf (ofInteger pf amount) (pow10 pf 9))))
  /\ (tokenMint <> SOL_MINT ->
      get "amount" (linkParams pf invoiceId amount tokenMint memo)
      = Some (numberToString pf (divide pf (ofInteger pf amount) (pow10 pf 6)))).
Proof.
  split; [reflexivity|]. split; [reflexivity|].
  split; [apply serialize_reference|].
  split; [apply get_reference|].
  split; [rewrite !get_reference; reflexivity|].
  rewrite get_amount. split.
  - intros ->. reflexivity.
  - intros Hne. destruct (String.eqb_spec tokenMint SOL_MINT); [contradiction|reflexivity].
Qed.

End SolanaPayProps.

(** ** Lottery settlement *)

Module LotteryProps.
Import Lottery.

Lemma settle_unsettled (draw now : Z) (entryId : string) (s : State)
    (e : LotteryEntry) (inv : Db.Invoice) (p : LotteryPool) :
  entries s !! entryId = Some e ->
  outcome e = None ->
  Db.invoices (db s) !! invoice_id e = Some inv ->
  pools s !! Db.token_mint inv = Some p ->
  settle draw now entryId s =
    match drawOutcome draw e with
    | Lost =>
        ({| db := db s; pools := pools s;
            entries := <[entryId := settleEntry Lost now e]> (entries s) |},
         Settled Lost 0 (houseCut p e))
    | Won =>
        if withinCap p (Db.amount inv) && keepsReserve p (Db.amount inv)
        then ({| db := db s;
                 pools := <[Db.token_mint inv := debit p (Db.amount inv)]> (pools s);
                 entries := <[entryId := settleEntry Won now e]> (entries s) |},
              Settled Won (Db.amount inv) (houseCut p e))
        else (s, Failed ConstraintViolated)
    end.
Proof.
  intros He Ho Hi Hp. unfold settle. rewrite He, Ho, Hi, Hp. reflexivity.
Qed.

Lemma settle_settled (draw now : Z) (entryId : string) (s : State)
    (e : LotteryEntry) (o : Outcome) :
  entries s !! entryId = Some e ->
  outcome e = Some o ->
  settle draw now entryId s = (s, Settled o 0 0).
Proof. intros He Ho. unfold settle. rewrite He, Ho. reflexivity. Qed.

(** A settlement that records an outcome leaves the entry with it. *)
Lemma settle_records (draw now : Z) (entryId : string) (s : State) (o : Outcome) :
  recorded (settle draw now entryId s).2 = Some o ->
  exists e, entries (settle draw now entryId s).1 !! entryId = Some e
            /\ outcome e = Some o.
Proof.
  unfold settle.
  destruct (entries s !! entryId) as [e|] eqn:He; [|discriminate].
  destruct (outcome e) as [o'|] eqn:Ho.
  { cbn. intros [= <-]. exists e. auto. }
  destruct (Db.invoices (db s) !! invoice_id e) as [inv|]; [|discriminate].
  destruct (pools s !! Db.token_mint inv) as [p|]; [|discriminate].
  destruct (drawOutcome draw e).
  - destruct (withinCap p (Db.amount inv) && keepsReserve p (Db.amount inv));
      [|discriminate].
    cbn. intros [= <-]. rewrite lookup_insert_eq. eexists. split; reflexivity.
  - cbn. intros [= <-]. rewrite lookup_insert_eq. eexists. split; reflexivity.
Qed.

(** A settled entry is never written again. *)
Lemma settled_entry_kept (draw now : Z) (entryId k : string) (s : State)
    (e : LotteryEntry) (o : Outcome) :
  entries s !! k = Some e ->
  outcome e = Some o ->
  entries (settle draw now entryId s).1 !! k = Some e.
Proof.
  intros Hk Ho. unfold settle.
  destruct (entries s !! entryId) as [e'|] eqn:He; [|exact Hk].
  destruct (outcome e') as [o'|] eqn:Ho'; [exact Hk|].
  assert (Hne : entryId <> k) by (intros ->; congruence).
  destruct (Db.invoices (db s) !! invoice_id e') as [inv|]; [|exact Hk].
  destruct (pools s !! Db.token_mint inv) as [p|]; [|exact Hk].
  destruct (drawOutcome draw e').
  - destruct (withinCap p (Db.amount inv) && keepsReserve p (Db.amount inv));
      [|exact Hk].
    cbn. rewrite lookup_insert_ne by assumption. exact Hk.
  - cbn. rewrite lookup_insert_ne by assumption. exact Hk.
Qed.

(** C2: settlement is idempotent.  Once a settlement of an entry has
    recorded an outcome, settling the entry again, whatever is drawn,
    answers the same outcome, pays nothing and changes nothing, so the pool
    is debited once; and an entry that has an outcome keeps it, with its
    settlement time, through every later settlement call. *)
Theorem C2_settlement_idempotent
    (draw now draw' now' : Z) (entryId : string) (s : State) (o : Outcome) :
  recorded (settle draw now entryId s).2 = Some o ->
  let s1 := (settle draw now entryId s).1 in
  settle draw' now' entryId s1 = (s1, Settled o 0 0)
  /\ recorded (settle draw' now' entryId s1).2
     = recorded (settle draw now entryId s).2
  /\ paidOut (settle draw' now' entryId s1).2 = 0
  /\ pools (settle draw' now' entryId s1).1 = pools s1
  /\ (forall k e o' d t anyId,
        entries s1 !! k = Some e -> outcome e = Some o' ->
        entries (settle d t anyId s1).1 !! k = Some e).
Proof.
  intros Hrec. cbn zeta.
  destruct (settle_records draw now entryId s o Hrec) as (e & He & Ho).
  rewrite (settle_settled draw' now' entryId _ e o He Ho).
  cbn [fst snd recorded paidOut]. rewrite Hrec.
  repeat split.
  intros k e' o' d t anyId Hk Ho'. apply (settled_entry_kept d t anyId k _ e' o' Hk Ho').
Qed.

(** C3: a settlement pays out at most 10% of the pool balance and leaves
    at least the 20% reserve, and fails closed otherwise: when the invoice
    amount is above the cap or would cut into the reserve, nothing is paid
    and an unsettled entry that draws a win gets a failure, with no change
    to the pool or the entry.  What is paid is what leaves the pool. *)
Theorem C3_payout_within_cap_and_reserve
    (draw now : Z) (entryId : string) (s : State)
    (e : LotteryEntry) (inv : Db.Invoice) (p : LotteryPool) :
  entries s !! entryId = Some e ->
  Db.invoices (db s) !! invoice_id e = Some inv ->
  pools s !! Db.token_mint inv = Some p ->
  max_win_pct p = 10 ->
  min_reserve_pct p = 20 ->
  let s' := (settle draw now entryId s).1 in
  let r := (settle draw now entryId s).2 in
  (paidOut r <> 0 ->
   paidOut r * 10 <= balance p /\ balance p * 20 <= (balance p - paidOut r) * 100)
  /\ (exists p', pools s' !! Db.token_mint inv = Some p'
                 /\ balance p' = balance p - paidOut r)
  /\ (balance p < Db.amount inv * 10
      \/ (balance p - Db.amount inv) * 100 < balance p * 20 ->
      paidOut r = 0 /\ pools s' = pools s
      /\ (outcome e = None -> drawOutcome draw e = Won ->
          r = Failed ConstraintViolated /\ s' = s)).
Proof.
  intros He Hi Hp Hcap Hres. cbn zeta.
  destruct (outcome e) as [o|] eqn:Ho.
  { rewrite (settle_settled draw now entryId s e o He Ho).
    cbn [fst snd paidOut]. split; [congruence|]. split.
    - exists p. split; [assumption|lia].
    - intros _. repeat split. intros; discriminate. }
  rewrite (settle_unsettled draw now entryId s e inv p He Ho Hi Hp).
  destruct (drawOutcome draw e).
  2:{ cbn [fst snd paidOut pools]. split; [congruence|]. split.
      - exists p. split; [assumption|lia].
      - intros _. repeat split; intros; discriminate. }
  unfold withinCap, keepsReserve. rewrite Hcap, Hres.
  destruct (Z.leb_spec (Db.amount inv * 100) (balance p * 10)) as [Hc|Hc];
    destruct (Z.leb_spec (balance p * 20) ((balance p - Db.amount inv) * 100)) as [Hr|Hr];
    cbn [andb fst snd paidOut pools].
  - split; [intros _; lia|]. split.
    + exists (debit p (Db.amount inv)). rewrite lookup_insert_eq. auto.
    + intros [H|H]; lia.
  - split; [congruence|]. split; [exists p; split; [assumption|lia]|].
    intros _. repeat split.
  - split; [congruence|]. split; [exists p; split; [assumption|lia]|].
    intros _. repeat split.
  - split; [congruence|]. split; [exists p; split; [assumption|lia]|].
    intros _. repeat split.
Qed.

(** C2 on the sample state: the entry wins on the draw 10; settled again on
    the draw 90 it is still a win, and nothing more is paid. *)
Lemma C2_settlement_idempotent_witness :
  settle 90 1700000200 "entry-1"
    (settle 10 1700000100 "entry-1" (Sample.lottery 5000)).1
  = ((settle 10 1700000100 "entry-1" (Sample.lottery 5000)).1, Settled Won 0 0)
  /\ paidOut (settle 10 1700000100 "entry-1" (Sample.lottery 5000)).2 = 100.
Proof.
  split.
  - apply (C2_settlement_idempotent 10 1700000100 90 1700000200 "entry-1"
             (Sample.lottery 5000) Won).
    vm_compute. reflexivity.
  - vm_compute. reflexivity.
Defined.

(** C3 on the sample state: from a pool of 5000 the win of 100 is paid and
    is within the cap and the reserve; from a pool of 500 the same win is
    above the cap of 50 and the settlement fails with nothing paid. *)
Lemma C3_payout_witness :
  (100 * 10 <= 5000 /\ 5000 * 20 <= (5000 - 100) * 100)
  /\ settle 10 1700000100 "entry-1" (Sample.lottery 500)
     = (Sample.lottery 500, Failed ConstraintViolated).
Proof.
  split.
  - edestruct (C3_payout_within_cap_and_reserve 10 1700000100 "entry-1"
                 (Sample.lottery 5000) Sample.entry) as (Hpaid & _ & _);
      [vm_compute; reflexivity .. |].
    apply Hpaid. vm_compute. discriminate.
  - edestruct (C3_payout_within_cap_and_reserve 10 1700000100 "entry-1"
                 (Sample.lottery 500) Sample.entry) as (_ & _ & Hclosed);
      [vm_compute; reflexivity .. |].
    destruct Hclosed as (_ & _ & Hfail); [left; vm_compute; reflexivity|].
    destruct Hfail as [Hr Hs]; [reflexivity | vm_compute; reflexivity |].
    rewrite (surjective_pairing (settle _ _ _ _)), Hr, Hs. reflexivity.
Defined.

End LotteryProps.

(** * Further properties of the code *)

(** ** Base58: decoding and encoding a public key *)

Module Base58Props.
Import Base58.

(** Fuel [f] is enough for [n] when [n] has at most [f] bits. *)
Local Abbreviation enough f n := (n < 2 ^ N.of_nat f)%N.

Lemma enough_size_pos (p : positive) : enough (Pos.size_nat p) (Npos p).
Proof.
  induction p as [p IH|p IH|]; cbn [Pos.size_nat];
    rewrite ?Nat2N.inj_succ, ?N.pow_succ_r'; lia.
Qed.

Lemma enough_size (n : N) : enough (N.size_nat n) n.
Proof.
  destruct n as [|p]; [cbn; lia|]. apply enough_size_pos.
Qed.

Lemma enough_div (f : nat) (n b : N) :
  (2 <= b)%N -> enough (S f) n -> enough f (n / b).
Proof.
  intros Hb Hn. rewrite Nat2N.inj_succ, N.pow_succ_r' in Hn.
  apply N.Div0.div_lt_upper_bound. nia.
Qed.

Lemma enough_zero (n : N) : enough O n -> n = 0%N.
Proof. cbn. lia. Qed.

(** *** The digits of the alphabet *)

Lemma index_from_get (i : N) (c : ascii) (s : string) (j : N) :
  index_from i c s = Some j ->
  (i <= j)%N /\ String.get (N.to_nat (j - i)) s = Some c.
Proof.
  revert i. induction s as [|d s IH]; intros i; cbn [index_from]; [discriminate|].
  destruct (Ascii.eqb_spec c d) as [->|Hne].
  - intros [= <-]. rewrite N.sub_diag. split; [lia|reflexivity].
  - intros H. destruct (IH _ H) as [Hle Hget]. split; [lia|].
    replace (N.to_nat (j - i)) with (S (N.to_nat (j - N.succ i))) by lia.
    exact Hget.
Qed.

Lemma index_from_bound (i : N) (c : ascii) (s : string) (j : N) :
  index_from i c s = Some j -> (j < i + N.of_nat (String.length s))%N.
Proof.
  revert i. induction s as [|d s IH]; intros i; cbn [index_from String.length];
    [discriminate|].
  destruct (Ascii.eqb c d).
  - intros [= <-]. lia.
  - intros H. apply IH in H. lia.
Qed.

Lemma digit_char_digit (c : ascii) (d : N) :
  digit c = Some d -> digit_char d = c /\ (d < 58)%N.
Proof.
  unfold digit, digit_char. intros H.
  destruct (index_from_get _ _ _ _ H) as [_ Hget].
  rewrite N.sub_0_r in Hget. rewrite Hget. split; [reflexivity|].
  apply index_from_bound in H. exact H.
Qed.

Lemma digit_zero (c : ascii) : digit c = Some 0%N -> c = "1"%char.
Proof.
  intros H. apply digit_char_digit in H as [<- _]. reflexivity.
Qed.

(** *** Digits to number and back *)

Lemma be_digits_zero (f : nat) (acc : string) : be_digits f 0 acc = acc.
Proof. destruct f; reflexivity. Qed.

Lemma be_digits_S (f : nat) (n : N) (acc : string) :
  be_digits (S f) n acc =
  if (n =? 0)%N then acc
  else be_digits f (n / 58)%N (String (digit_char (n mod 58)%N) acc).
Proof. reflexivity. Qed.

Lemma be_digits_fuel (f1 f2 : nat) (n : N) (acc : string) :
  enough f1 n -> enough f2 n -> be_digits f1 n acc = be_digits f2 n acc.
Proof.
  revert f2 n acc. induction f1 as [|f1 IH]; intros f2 n acc H1 H2.
  - apply enough_zero in H1 as ->. rewrite !be_digits_zero. reflexivity.
  - destruct (N.eqb_spec n 0) as [->|Hn].
    + rewrite !be_digits_zero. reflexivity.
    + destruct f2 as [|f2]; [apply enough_zero in H2; contradiction|].
      cbn [be_digits]. apply N.eqb_neq in Hn. rewrite Hn.
      apply IH; apply enough_div; (lia || assumption).
Qed.

Lemma digits_value_digits (r : string) (a m : N) (tail : string) (f f' : nat) :
  digits_value a r = Some m ->
  a <> 0%N ->
  enough f m -> enough f' a ->
  be_digits f m tail = be_digits f' a (r ++ tail)%string.
Proof.
  revert a f'. induction r as [|c r IH]; intros a f' Hv Ha Hm Hfa.
  - cbn in Hv. injection Hv as <-. apply be_digits_fuel; assumption.
  - cbn [digits_value] in Hv. destruct (digit c) as [d|] eqn:Hd; [|discriminate].
    destruct (digit_char_digit c d Hd) as [Hc Hlt].
    assert (Hfa' : enough (S (N.size_nat (a * 58 + d))) (a * 58 + d)).
    { pose proof (enough_size (a * 58 + d)) as He.
      rewrite Nat2N.inj_succ, N.pow_succ_r'. lia. }
    rewrite (IH (a * 58 + d)%N _ Hv ltac:(lia) Hm Hfa').
    cbn [be_digits]. replace ((a * 58 + d =? 0)%N) with false
      by (symmetry; apply N.eqb_neq; lia).
    replace ((a * 58 + d) / 58)%N with a
      by (apply N.div_unique with d; lia).
    replace ((a * 58 + d) mod 58)%N with d
      by (apply N.mod_unique with a; lia).
    rewrite Hc. change (String c r ++ tail)%string with (String c (r ++ tail)%string).
    apply be_digits_fuel; [|assumption].
    apply enough_div with (b := 58%N) in Hfa'; [|lia].
    replace ((a * 58 + d) / 58)%N with a in Hfa'
      by (apply N.div_unique with d; lia).
    exact Hfa'.
Qed.

Lemma append_empty (s : string) : (s ++ "")%string = s.
Proof.
  induction s as [|c s IH]; [reflexivity|].
  change (String c (s ++ "")%string = String c s). rewrite IH. reflexivity.
Qed.

(** A text without a leading ['1'] is the digits of its value. *)
Lemma digits_roundtrip (r : string) (n : N) :
  digits_value 0 r = Some n ->
  (forall t, r <> String "1"%char t) ->
  be_digits (N.size_nat n) n "" = r.
Proof.
  destruct r as [|c r]; intros Hv Hlead.
  - cbn in Hv. injection Hv as <-. reflexivity.
  - cbn [digits_value] in Hv. destruct (digit c) as [d|] eqn:Hd; [|discriminate].
    destruct (digit_char_digit c d Hd) as [Hc Hlt].
    assert (Hd0 : d <> 0%N).
    { intros ->. apply digit_zero in Hd. apply (Hlead r). rewrite Hd. reflexivity. }
    rewrite N.mul_0_l, N.add_0_l in Hv.
    assert (Hfd : enough 6 d) by (cbn; lia).
    rewrite (digits_value_digits r d n "" _ 6 Hv Hd0 (enough_size n) Hfd).
    rewrite be_digits_S. replace ((d =? 0)%N) with false by (symmetry; apply N.eqb_neq; lia).
    rewrite N.div_small, N.mod_small by lia.
    rewrite be_digits_zero, Hc, append_empty. reflexivity.
Qed.

(** *** Number to bytes and back *)

Lemma be_bytes_zero (f : nat) (acc : list N) : be_bytes f 0 acc = acc.
Proof. destruct f; reflexivity. Qed.

Lemma be_bytes_S (f : nat) (n : N) (acc : list N) :
  be_bytes (S f) n acc =
  if (n =? 0)%N then acc else be_bytes f (n / 256)%N ((n mod 256)%N :: acc).
Proof. reflexivity. Qed.

Lemma be_bytes_value (f : nat) (n : N) (acc : list N) :
  enough f n ->
  fold_left (fun a x => (a * 256 + x)%N) (be_bytes f n acc) 0%N
  = fold_left (fun a x => (a * 256 + x)%N) acc n.
Proof.
  revert n acc. induction f as [|f IH]; intros n acc Hn.
  - apply enough_zero in Hn as ->. reflexivity.
  - rewrite be_bytes_S. destruct (N.eqb_spec n 0) as [->|Hn0]; [reflexivity|].
    rewrite IH by (apply enough_div; (lia || assumption)).
    cbn [fold_left]. f_equal.
    rewrite (N.div_mod n 256) at 3 by lia. lia.
Qed.

Lemma be_bytes_head (f : nat) (n : N) (acc : list N) :
  n <> 0%N -> enough f n ->
  exists x t, be_bytes f n acc = x :: t /\ x <> 0%N.
Proof.
  revert n acc. induction f as [|f IH]; intros n acc Hn0 Hn.
  - apply enough_zero in Hn. contradiction.
  - rewrite be_bytes_S. apply N.eqb_neq in Hn0 as Hb. rewrite Hb.
    destruct (N.eq_dec (n / 256)%N 0%N) as [Hz|Hz].
    + rewrite Hz, be_bytes_zero. exists (n mod 256)%N, acc. split; [reflexivity|].
      rewrite (N.div_mod n 256) in Hn0 by lia. lia.
    + apply IH; [assumption|]. apply enough_div; (lia || assumption).
Qed.

Lemma N_of_bytes_of_N (n : N) : N_of_bytes (bytes_of_N n) = n.
Proof.
  unfold N_of_bytes, bytes_of_N. rewrite be_bytes_value by apply enough_size.
  reflexivity.
Qed.

Lemma skip_zero_bytes_repeat (z : nat) (b : list N) :
  (b = [] \/ exists x t, b = x :: t /\ x <> 0%N) ->
  skip_zero_bytes (repeat 0%N z ++ b) = (z, b).
Proof.
  intros Hb. induction z as [|z IH].
  - cbn [repeat app]. destruct Hb as [->|(x & t & -> & Hx)]; [reflexivity|].
    cbn [skip_zero_bytes]. apply N.eqb_neq in Hx. rewrite Hx. reflexivity.
  - cbn [repeat app skip_zero_bytes]. rewrite N.eqb_refl, IH. reflexivity.
Qed.

Lemma skip_leader_spec (s : string) (z : nat) (rest : string) :
  skip_leader s = (z, rest) ->
  s = leader z rest /\ forall t, rest <> String "1"%char t.
Proof.
  revert z rest. induction s as [|c s IH]; intros z rest; cbn [skip_leader].
  - intros [= <- <-]. split; [reflexivity|discriminate].
  - destruct (Ascii.eqb_spec c "1"%char) as [->|Hc].
    + destruct (skip_leader s) as [n t] eqn:Hs. intros [= <- <-].
      destruct (IH n t eq_refl) as [-> Hlead]. split; [reflexivity|assumption].
    + intros [= <- <-]. split; [reflexivity|]. intros t [= ->]. contradiction.
Qed.

(** Encoding what was decoded gives the text back. *)
Lemma decode_encode (s : string) (b : list N) :
  decode s = Some b -> encode b = s.
Proof.
  unfold decode, encode.
  destruct (skip_leader s) as [z rest] eqn:Hs.
  destruct (digits_value 0 rest) as [n|] eqn:Hv; [|discriminate].
  intros [= <-].
  destruct (skip_leader_spec s z rest Hs) as [-> Hlead].
  rewrite skip_zero_bytes_repeat.
  - rewrite N_of_bytes_of_N, (digits_roundtrip rest n Hv Hlead). reflexivity.
  - destruct (N.eq_dec n 0%N) as [->|Hn]; [left; reflexivity|right].
    apply be_bytes_head; [assumption|apply enough_size].
Qed.

(** The text a public key was built from is the text it prints as. *)
Lemma PublicKey_toString_new (s : string) (k : list N) :
  PublicKey.new s = Some k ->
  PublicKey.toString k = s /\ length k = 32%nat.
Proof.
  unfold PublicKey.new, PublicKey.toString.
  destruct (decode s) as [b|] eqn:Hd; [|discriminate].
  destruct (Nat.eqb_spec (length b) PublicKey.PUBLIC_KEY_LENGTH) as [Hl|]; [|discriminate].
  intros [= <-]. split; [apply decode_encode, Hd|exact Hl].
Qed.

End Base58Props.

(** ** Runs of the invoice router *)

Module RunsProps.
Import Routes Db Runs.

(** *** Codes, error bodies, and the store on an error *)

Definition isError (j : Json) : Prop := exists msg, j = JError msg.

(** What every answer of a handler satisfies. *)
Definition answerOk (db : Database) (out : Database * Response) : Prop :=
  let code := code out.2 in
  (code = 200 \/ code = 201 \/ code = 400 \/ code = 404 \/ code = 500)
  /\ (400 <= code <-> isError (json out.2))
  /\ (400 <= code -> out.1 = db).

Local Ltac answer_error :=
  cbn; repeat split; try lia; try (intros _; eexists; reflexivity); auto 6.

Local Ltac answer_success :=
  cbn; repeat split; try lia; auto 6;
  try (intros [msg Hmsg]; discriminate Hmsg).

Lemma createInvoice_answer (w : World) (b : Body) (db : Database) :
  answerOk db (createInvoice w b db).
Proof.
  unfold createInvoice, answerOk.
  destruct (missingRequired b); [answer_error|]. cbn zeta.
  destruct (SolanaPay.generatePaymentLink _ _ _ _ _ _ _); [|answer_error].
  destruct (invoiceQueries.create _ _ _ _ _ _ _ _ _ _ _); [answer_success|answer_error].
Qed.

Lemma listInvoices_answer (w : World) (q : option string) (db : Database) :
  answerOk db (listInvoices w q db).
Proof.
  unfold listInvoices, answerOk. destruct q as [q|]; [|answer_error].
  destruct (Js.truthy_string q); [|answer_error]. cbn zeta.
  destruct (bool_decide _); [answer_success|answer_error].
Qed.

Lemma getInvoice_answer (w : World) (id : string) (db : Database) :
  answerOk db (getInvoice w id db).
Proof.
  unfold getInvoice, answerOk.
  destruct (invoiceQueries.getById id db) as [inv|]; [|answer_error].
  destruct (parsed w inv); [answer_success|answer_error].
Qed.

Lemma remind_answer (w : World) (id : string) (db : Database) :
  answerOk db (remind w id db).
Proof.
  unfold remind, answerOk.
  destruct (invoiceQueries.getById id db) as [inv|]; [|answer_error].
  destruct (negb _); [answer_error|].
  destruct (negb _); [answer_error|].
  destruct (sendReminderEmail w inv); [answer_success|answer_error].
Qed.

Lemma patchStatus_answer (w : World) (id : string) (b : Body) (db : Database) :
  answerOk db (patchStatus w id b db).
Proof.
  unfold patchStatus, answerOk.
  destruct (invoiceQueries.getById id db); [answer_success|answer_error].
Qed.

Lemma getQr_answer (w : World) (id : string) (db : Database) :
  answerOk db (getQr w id db).
Proof.
  unfold getQr, answerOk.
  destruct (invoiceQueries.getById id db) as [inv|]; [|answer_error].
  destruct (generateQRCode w _); [answer_success|answer_error].
Qed.

Lemma createClient_answer (w : World) (b : Body) (db : Database) :
  answerOk db (createClient w b db).
Proof.
  unfold createClient, answerOk.
  destruct (ownerWallet b); [|answer_error].
  destruct (name b); [|answer_error].
  destruct (_ || _); [answer_error|].
  destruct (clientQueries.create _ _ _ _ _ _ _); [answer_success|answer_error].
Qed.

(** The handler a request is routed to. *)
Lemma router_cases (w : World) (r : Request) (db : Database)
    (out : Database * Response) :
  router w r db = Some out ->
  (method r = POST /\ path r = [] /\ out = createInvoice w (body r) db)
  \/ (method r = GET /\ path r = [] /\ out = listInvoices w (query_wallet r) db)
  \/ (method r = GET /\ exists id, path r = [id] /\ out = getInvoice w id db)
  \/ (method r = POST /\ exists id s, path r = [id; s] /\ segment "remind" s = true
      /\ out = remind w id db)
  \/ (method r = PATCH /\ exists id s, path r = [id; s] /\ segment "status" s = true
      /\ out = patchStatus w id (body r) db)
  \/ (method r = GET /\ exists id s, path r = [id; s] /\ segment "qr" s = true
      /\ out = getQr w id db)
  \/ (method r = POST /\ exists s, path r = [s] /\ segment "clients" s = true
      /\ out = createClient w (body r) db).
Proof.
  destruct r as [m p q b]. unfold router. cbn [method path query_wallet body].
  intros H.
  repeat match type of H with
         | context [match ?x with _ => _ end] => is_var x; destruct x
         end;
    try discriminate H;
    repeat match type of H with
           | context [if segment ?n ?x then _ else _] =>
               let Hs := fresh "Hs" in destruct (segment n x) eqn:Hs
           end;
    try discriminate H; injection H as <-;
    repeat match goal with
           | |- _ \/ _ => first [ solve [left; repeat split; eauto] | right ]
           end;
    repeat split; eauto.
Qed.

(** X1.  Every answer of the router has one of the codes 200, 201, 400,
    404, 500; it carries a JSON error body exactly when the code is 400 or
    above; and a request answered with an error leaves the store as it was. *)
Theorem router_errors_change_nothing
    (w : World) (r : Request) (db db' : Database) (resp : Response) :
  router w r db = Some (db', resp) ->
  (code resp = 200 \/ code resp = 201 \/ code resp = 400 \/ code resp = 404
   \/ code resp = 500)
  /\ (400 <= code resp <-> exists msg, json resp = JError msg)
  /\ (400 <= code resp -> db' = db).
Proof.
  intros H. change (answerOk db (db', resp)).
  destruct (router_cases w r db _ H)
    as [(_ & _ & ->)|[(_ & _ & ->)|[(_ & id & _ & ->)|[(_ & id & s & _ & _ & ->)
       |[(_ & id & s & _ & _ & ->)|[(_ & id & s & _ & _ & ->)
       |(_ & s & _ & _ & ->)]]]]]];
    auto using createInvoice_answer, listInvoices_answer, getInvoice_answer,
      remind_answer, patchStatus_answer, getQr_answer, createClient_answer.
Qed.

(** *** Reads do not write *)

Lemma listInvoices_reads (w : World) (q : option string) (db : Database) :
  (listInvoices w q db).1 = db.
Proof.
  unfold listInvoices. destruct q as [q|]; [|reflexivity].
  destruct (Js.truthy_string q); [|reflexivity]. cbn zeta.
  destruct (bool_decide _); reflexivity.
Qed.

Lemma getInvoice_reads (w : World) (id : string) (db : Database) :
  (getInvoice w id db).1 = db.
Proof.
  unfold getInvoice. destruct (invoiceQueries.getById id db) as [inv|]; [|reflexivity].
  destruct (parsed w inv); reflexivity.
Qed.

Lemma getQr_reads (w : World) (id : string) (db : Database) : (getQr w id db).1 = db.
Proof. unfold getQr. repeat case_match; reflexivity. Qed.

(** X2.  A GET request never changes the store, whatever it is answered. *)
Theorem router_get_reads_only
    (w : World) (r : Request) (db db' : Database) (resp : Response) :
  method r = GET ->
  router w r db = Some (db', resp) ->
  db' = db.
Proof.
  intros Hm H. change db' with (db', resp).1.
  destruct (router_cases w r db _ H)
    as [(Hm' & _)|[(_ & _ & ->)|[(_ & id & _ & ->)|[(Hm' & _)
       |[(Hm' & _)|[(_ & id & s & _ & _ & ->)|(Hm' & _)]]]]]];
    try congruence;
    auto using listInvoices_reads, getInvoice_reads, getQr_reads.
Qed.

(** *** The terms of an invoice are never rewritten *)

Definition keepsTerms (db db' : Database) : Prop :=
  forall k row,
    invoices db !! k = Some row ->
    exists row', invoices db' !! k = Some row' /\ sameTerms row row'.

Lemma sameTerms_refl (row : Invoice) : sameTerms row row.
Proof. unfold sameTerms. repeat split. Qed.

Lemma keepsTerms_refl (db : Database) : keepsTerms db db.
Proof. intros k row H. exists row. split; [assumption|apply sameTerms_refl]. Qed.

Lemma keepsTerms_alter (f : Invoice -> Invoice) (id : string) (db : Database) :
  (forall row, sameTerms row (f row)) ->
  keepsTerms db (with_invoices db (alter f id (invoices db))).
Proof.
  intros Hf k row Hrow. unfold with_invoices. cbn [invoices].
  destruct (decide (id = k)) as [->|Hne].
  - exists (f row). rewrite lookup_alter_eq, Hrow. split; [reflexivity|apply Hf].
  - exists row. rewrite lookup_alter_ne by assumption.
    split; [assumption|apply sameTerms_refl].
Qed.

Lemma createInvoice_keepsTerms (w : World) (b : Body) (db : Database) :
  keepsTerms db (createInvoice w b db).1.
Proof.
  unfold createInvoice.
  destruct (missingRequired b); [apply keepsTerms_refl|]. cbn zeta.
  destruct (SolanaPay.generatePaymentLink _ _ _ _ _ _ _); [|apply keepsTerms_refl].
  unfold invoiceQueries.create.
  destruct (invoices db !! String.append _ _) eqn:Hfree; [apply keepsTerms_refl|].
  intros k row Hrow. exists row. cbn [fst with_invoices invoices].
  rewrite lookup_insert_ne by congruence.
  split; [assumption|apply sameTerms_refl].
Qed.

Lemma remind_keepsTerms (w : World) (id : string) (db : Database) :
  keepsTerms db (remind w id db).1.
Proof.
  unfold remind.
  destruct (invoiceQueries.getById id db) as [inv|]; [|apply keepsTerms_refl].
  destruct (negb _); [apply keepsTerms_refl|].
  destruct (negb _); [apply keepsTerms_refl|].
  destruct (sendReminderEmail w inv); [|apply keepsTerms_refl].
  apply keepsTerms_alter. intros row. unfold sameTerms. repeat split.
Qed.

Lemma patchStatus_keepsTerms (w : World) (id : string) (b : Body) (db : Database) :
  keepsTerms db (patchStatus w id b db).1.
Proof.
  unfold patchStatus.
  destruct (invoiceQueries.getById id db); [|apply keepsTerms_refl].
  apply keepsTerms_alter. intros row. unfold sameTerms. repeat split.
Qed.

Lemma createClient_invoices (w : World) (b : Body) (db : Database) :
  invoices (createClient w b db).1 = invoices db.
Proof.
  unfold createClient, clientQueries.create.
  repeat case_match; simplify_eq; reflexivity.
Qed.

(** X3.  No request rewrites the terms of an invoice: whatever the router
    serves, an invoice found before is found after, with the same id,
    creator and client, amount, token mint, due date, memo, creation time,
    on-chain address, payment link and milestones. *)
Theorem router_keeps_invoice_terms
    (w : World) (r : Request) (db db' : Database) (resp : Response)
    (k : string) (row : Invoice) :
  router w r db = Some (db', resp) ->
  invoices db !! k = Some row ->
  exists row', invoices db' !! k = Some row' /\ sameTerms row row'.
Proof.
  intros H. revert k row. change (keepsTerms db (db', resp).1).
  destruct (router_cases w r db _ H)
    as [(_ & _ & ->)|[(_ & _ & ->)|[(_ & id & _ & ->)|[(_ & id & s & _ & _ & ->)
       |[(_ & id & s & _ & _ & ->)|[(_ & id & s & _ & _ & ->)
       |(_ & s & _ & _ & ->)]]]]]];
    rewrite ?listInvoices_reads, ?getInvoice_reads, ?getQr_reads;
    auto using keepsTerms_refl, createInvoice_keepsTerms, remind_keepsTerms,
      patchStatus_keepsTerms.
  intros k row Hrow. exists row. rewrite createClient_invoices.
  split; [assumption|apply sameTerms_refl].
Qed.

(** *** What every stored row satisfies *)

Lemma truthy_string_default (v : option string) :
  Js.truthy_opt Js.truthy_string v = true -> default "" v <> "".
Proof.
  destruct v as [s|]; cbn; [|discriminate].
  unfold Js.truthy_string. rewrite negb_true_iff. apply String.eqb_neq.
Qed.

Lemma truthy_number_default (v : option Z) :
  Js.truthy_opt Js.truthy_number v = true -> default 0 v <> 0.
Proof.
  destruct v as [z|]; cbn; [|discriminate].
  unfold Js.truthy_number. rewrite negb_true_iff. apply Z.eqb_neq.
Qed.

Lemma or_null_not_empty (v : option string) : Js.or_null v <> Some "".
Proof.
  destruct v as [s|]; cbn; [|discriminate].
  unfold Js.truthy_string. destruct (String.eqb_spec s ""); cbn; congruence.
Qed.

Lemma missingRequired_false (b : Body) :
  missingRequired b = false ->
  default "" (creatorWallet b) <> "" /\ default 0 (Routes.amount b) <> 0
  /\ default "" (tokenMint b) <> "" /\ default 0 (dueDate b) <> 0.
Proof.
  unfold missingRequired. rewrite !orb_false_iff, !negb_false_iff.
  intros (((H1 & H2) & H3) & H4).
  auto using truthy_string_default, truthy_number_default.
Qed.

(** The link does not tell an empty memo from a missing one. *)
Lemma link_or_null (pf : SolanaPay.Platform) (env env' : gmap string string)
    (id recipient : string) (amount : Z) (tokenMint : string) (memo : option string) :
  SolanaPay.generatePaymentLink pf env id recipient amount tokenMint (Js.or_null memo)
  = SolanaPay.generatePaymentLink pf env' id recipient amount tokenMint memo.
Proof.
  unfold SolanaPay.generatePaymentLink, SolanaPay.linkParams.
  destruct memo as [m|]; [|reflexivity]. cbn [Js.or_null Js.truthy_opt].
  destruct (Js.truthy_string m) eqn:Hm; cbn [Js.truthy_opt]; rewrite ?Hm; reflexivity.
Qed.

Lemma link_valid_recipient (pf : SolanaPay.Platform) (env : gmap string string)
    (id recipient : string) (amount : Z) (tokenMint : string)
    (memo : option string) (link : string) :
  SolanaPay.generatePaymentLink pf env id recipient amount tokenMint memo = Some link ->
  is_Some (PublicKey.new recipient).
Proof.
  unfold SolanaPay.generatePaymentLink.
  destruct (PublicKey.new recipient); [eauto|discriminate].
Qed.

Lemma goodStore_alter (pf : SolanaPay.Platform) (f : Invoice -> Invoice)
    (id : string) (db : Database) :
  (forall k row, goodRow pf k row -> goodRow pf k (f row)) ->
  goodStore pf db ->
  goodStore pf (with_invoices db (alter f id (invoices db))).
Proof.
  intros Hf [Hi Hc]. split; [|exact Hc].
  intros k row. unfold with_invoices. cbn [invoices].
  destruct (decide (id = k)) as [->|Hne].
  - rewrite lookup_alter_eq. destruct (invoices db !! k) as [old|] eqn:Hold;
      [|discriminate].
    intros [= <-]. apply Hf, Hi, Hold.
  - rewrite lookup_alter_ne by assumption. apply Hi.
Qed.

Lemma bump_reminder_good (pf : SolanaPay.Platform) (at_ : Z) (k : string)
    (row : Invoice) :
  goodRow pf k row -> goodRow pf k (invoiceQueries.bump_reminder at_ row).
Proof.
  intros [].
  constructor; cbn; try assumption; try lia.
  split; [discriminate|lia].
Qed.

Lemma set_status_good (pf : SolanaPay.Platform) (now : Z) (st sig : option string)
    (k : string) (row : Invoice) :
  goodRow pf k row ->
  goodRow pf k
    (invoiceQueries.set_status st
       (if bool_decide (st = Some "paid") then Some now else None)
       (Js.or_null sig) row).
Proof.
  intros [].
  constructor; cbn; try assumption.
  - destruct (bool_decide_reflect (st = Some "paid")) as [Hp|Hp].
    + split; [intros _; exact Hp|eauto].
    + split; [intros [x Hx]; discriminate|contradiction].
  - apply or_null_not_empty.
Qed.

Lemma createInvoice_good (pf : SolanaPay.Platform) (w : World) (b : Body)
    (db : Database) :
  platform w = pf -> goodStore pf db -> goodStore pf (createInvoice w b db).1.
Proof.
  intros <- Hgood. unfold createInvoice.
  destruct (missingRequired b) eqn:Hm; [exact Hgood|]. cbn zeta.
  destruct (missingRequired_false b Hm) as (Hcw & Ha & Htm & Hdd).
  destruct (SolanaPay.generatePaymentLink _ _ _ _ _ _ _) as [link|] eqn:Hl;
    [|exact Hgood].
  unfold invoiceQueries.create.
  destruct (invoices db !! String.append _ _) eqn:Hfree; [exact Hgood|].
  destruct Hgood as [Hi Hc]. split; [|exact Hc].
  intros k row. cbn [fst with_invoices invoices].
  rewrite lookup_insert_Some. intros [[<- <-]|[_ Hrow]]; [|apply Hi, Hrow].
  constructor; cbn; try assumption; try reflexivity; try discriminate;
    try apply or_null_not_empty.
  - eexists. reflexivity.
  - eapply link_valid_recipient, Hl.
  - intros env'. rewrite <- Hl. apply link_or_null.
  - split; reflexivity.
  - split; [intros [x Hx]; discriminate|discriminate].
Qed.

Lemma remind_good (pf : SolanaPay.Platform) (w : World) (id : string)
    (db : Database) :
  goodStore pf db -> goodStore pf (remind w id db).1.
Proof.
  intros Hgood. unfold remind.
  destruct (invoiceQueries.getById id db) as [inv|]; [|exact Hgood].
  destruct (negb _); [exact Hgood|].
  destruct (negb _); [exact Hgood|].
  destruct (sendReminderEmail w inv); [|exact Hgood].
  apply goodStore_alter; [|exact Hgood].
  intros k row. apply bump_reminder_good.
Qed.

Lemma patchStatus_good (pf : SolanaPay.Platform) (w : World) (id : string)
    (b : Body) (db : Database) :
  goodStore pf db -> goodStore pf (patchStatus w id b db).1.
Proof.
  intros Hgood. unfold patchStatus.
  destruct (invoiceQueries.getById id db); [|exact Hgood].
  apply goodStore_alter; [|exact Hgood].
  intros k row. apply set_status_good.
Qed.

Lemma createClient_good (pf : SolanaPay.Platform) (w : World) (b : Body)
    (db : Database) :
  goodStore pf db -> goodStore pf (createClient w b db).1.
Proof.
  intros Hgood. unfold createClient.
  destruct (ownerWallet b) as [ow|] eqn:How; [|exact Hgood].
  destruct (name b) as [n|] eqn:Hn; [|exact Hgood].
  destruct (_ || _) eqn:Hm; [exact Hgood|].
  apply orb_false_iff in Hm as [Hm1 Hm2]. rewrite negb_false_iff in Hm1, Hm2.
  unfold clientQueries.create.
  destruct (clients db !! nanoid w 10) eqn:Hfree; [exact Hgood|].
  destruct Hgood as [Hi Hc]. split; [exact Hi|].
  intros k c. cbn [fst with_clients clients].
  rewrite lookup_insert_Some. intros [[<- <-]|[_ Hk]]; [|apply Hc, Hk].
  constructor; cbn; try reflexivity; try apply or_null_not_empty.
  - apply (truthy_string_default (Some ow) Hm1).
  - apply (truthy_string_default (Some n) Hm2).
Qed.

Lemma router_good (pf : SolanaPay.Platform) (w : World) (r : Request)
    (db db' : Database) (resp : Response) :
  platform w = pf -> goodStore pf db ->
  router w r db = Some (db', resp) -> goodStore pf db'.
Proof.
  intros Hpf Hgood H. change db' with (db', resp).1.
  destruct (router_cases w r db _ H)
    as [(_ & _ & ->)|[(_ & _ & ->)|[(_ & id & _ & ->)|[(_ & id & s & _ & _ & ->)
       |[(_ & id & s & _ & _ & ->)|[(_ & id & s & _ & _ & ->)
       |(_ & s & _ & _ & ->)]]]]]];
    rewrite ?listInvoices_reads, ?getInvoice_reads, ?getQr_reads;
    auto using createInvoice_good, remind_good, patchStatus_good, createClient_good.
Qed.

Lemma emptyDb_good (pf : SolanaPay.Platform) : goodStore pf Sample.emptyDb.
Proof. split; intros k x H; cbn in H; rewrite lookup_empty in H; discriminate. Qed.

Lemma serve_good (pf : SolanaPay.Platform) (steps : list (World * Request)) :
  Forall (fun step => platform step.1 = pf) steps ->
  goodStore pf (serve steps Sample.emptyDb).
Proof.
  intros Hpf. generalize (emptyDb_good pf). generalize Sample.emptyDb.
  induction Hpf as [|[w r] rest Hw _ IH]; intros db Hgood; [exact Hgood|].
  cbn [serve]. destruct (router w r db) as [[db' resp]|] eqn:Hr.
  - apply IH. eapply router_good; eassumption.
  - apply IH, Hgood.
Qed.

(** X4.  Whatever requests the router has served since the store was
    empty, every stored invoice sits under its own id, which starts with
    "INV-"; has a valid creator key, a non-zero amount and due date, and a
    payment link that is the one generated from its own id, creator, amount,
    mint and memo; has paid_at set exactly when its status is "paid"; and
    has last_reminder_at set exactly when its reminder count, never
    negative, is above zero. *)
Theorem served_invoices_are_consistent
    (pf : SolanaPay.Platform) (steps : list (World * Request))
    (k : string) (row : Invoice) :
  Forall (fun step => platform step.1 = pf) steps ->
  invoices (serve steps Sample.emptyDb) !! k = Some row ->
  Db.id row = k
  /\ startsWith "INV-" k
  /\ is_Some (PublicKey.new (creator_wallet row))
  /\ Db.amount row <> 0
  /\ due_date row <> 0
  /\ payment_link row
     = SolanaPay.generatePaymentLink pf ∅ (Db.id row) (creator_wallet row)
         (Db.amount row) (token_mint row) (Db.memo row)
  /\ is_Some (payment_link row)
  /\ (is_Some (paid_at row) <-> Db.status row = Some "paid")
  /\ 0 <= reminder_count row
  /\ (last_reminder_at row = None <-> reminder_count row = 0).
Proof.
  intros Hpf Hrow. destruct (serve_good pf steps Hpf) as [Hi _].
  destruct (Hi k row Hrow). repeat split; try assumption;
    try (apply good_paid0); try (apply good_reminded0).
  - symmetry. apply good_link0.
  - rewrite <- (good_link0 ∅). unfold SolanaPay.generatePaymentLink.
    destruct good_creator0 as [key ->]. eexists. reflexivity.
Qed.

Lemma not_invoice_id (s : string) :
  (forall rest, s <> ("INV-" ++ rest)%string) ->
  forall pf db, goodStore pf db -> invoices db !! s = None.
Proof.
  intros Hs pf db [Hi _]. destruct (invoices db !! s) as [row|] eqn:Hrow; [|reflexivity].
  destruct (good_prefix pf s row (Hi s row Hrow)) as [rest Hrest].
  exfalso. exact (Hs rest Hrest).
Qed.

(** X5.  GET /clients never lists clients: the route GET /:id, registered
    first, takes the request, and since no invoice is ever stored under the
    id "clients" the answer is 404 "Invoice not found", whatever wallet the
    query names and whatever was served before. *)
Theorem get_clients_is_shadowed
    (pf : SolanaPay.Platform) (steps : list (World * Request))
    (w : World) (q : option string) (b : Body) :
  Forall (fun step => platform step.1 = pf) steps ->
  router w {| method := GET; path := ["clients"]; query_wallet := q; body := b |}
    (serve steps Sample.emptyDb)
  = Some (serve steps Sample.emptyDb, respond 404 (JError "Invoice not found")).
Proof.
  intros Hpf. cbn. unfold getInvoice, invoiceQueries.getById.
  rewrite (not_invoice_id "clients" ltac:(intros rest; discriminate) pf _
             (serve_good pf steps Hpf)).
  reflexivity.
Qed.

(** *** Creating, then reading *)

Lemma createInvoice_201 (w : World) (b : Body) (db db' : Database)
    (j : Json) :
  createInvoice w b db = (db', respond 201 j) ->
  exists link,
    missingRequired b = false
    /\ linkFor w b = Some link
    /\ invoices db !! nextId w = None
    /\ db' = with_invoices db (<[nextId w := newRow w b link]> (invoices db))
    /\ j = JCreated (Some (newRow w b link)) link ("/pay/" ++ nextId w ++ "/qr").
Proof.
  unfold createInvoice, linkFor, nextId.
  destruct (missingRequired b); [discriminate|]. cbn zeta.
  destruct (SolanaPay.generatePaymentLink _ _ _ _ _ _ _) as [link|]; [|discriminate].
  unfold invoiceQueries.create.
  destruct (invoices db !! String.append _ _) eqn:Hfree; [discriminate|].
  unfold invoiceQueries.getById, with_invoices. cbn [invoices].
  rewrite lookup_insert_eq. intros [= <- <-]. exists link. repeat split.
Qed.

(** What [parsed] answers: the other columns of the row, with no milestones
    when the row has none and the parsed text otherwise. *)
Lemma parsed_view (w : World) (row : Invoice) (view : InvoiceView) :
  parsed w row = Some view ->
  v_invoice view = otherColumns row
  /\ (Db.milestones row = None -> v_milestones view = None)
  /\ (forall text, Db.milestones row = Some text -> text <> "" ->
        v_milestones view = parse w text).
Proof.
  unfold parsed. destruct (Db.milestones row) as [text|]; cbn [Js.or_null Js.truthy_opt].
  - unfold Js.truthy_string. destruct (String.eqb_spec text "") as [->|Hne]; cbn [negb].
    + intros [= <-]. cbn [v_invoice v_milestones].
      split; [reflexivity|]. split; [reflexivity|].
      intros text [= <-] H. contradiction.
    + destruct (parse w text) as [p|] eqn:Hp; cbn [mbind option_bind]; [|discriminate].
      intros [= <-]. cbn [v_invoice v_milestones].
      split; [reflexivity|]. split; [discriminate|].
      intros text' [= <-] _. symmetry. exact Hp.
  - intros [= <-]. cbn [v_invoice v_milestones].
    split; [reflexivity|]. split; [reflexivity|]. discriminate.
Qed.

(** X6.  An invoice answered 201 can be read back.  The 201 body carries
    the stored row, whose milestones are the JSON text of the milestones of
    the request (none when the request has none).  GET /:id with the id of
    the answer is answered 200 with the other columns of that row and its
    milestones parsed (no milestones when the request had none, what
    JSON.parse makes of the text otherwise), or 500 when the text does not
    parse.  When the list of its
    creator's invoices is answered 200, the list contains the row with its
    milestones parsed.  The row is pending with no reminder sent, and the
    payment link and QR path of the answer are those of the stored row. *)
Theorem created_invoice_reads_back
    (w w' : World) (b : Body) (db db' : Database) (row : Invoice)
    (link qr : string) (q : option string) (b' : Body) :
  createInvoice w b db = (db', respond 201 (JCreated (Some row) link qr)) ->
  Db.milestones row = (stringify w <$> Routes.milestones b)
  /\ router w' {| method := GET; path := [Db.id row]; query_wallet := q; body := b' |} db'
     = Some (db', match parsed w' row with
                  | Some view => respond 200 (JInvoice view)
                  | None => respond 500 (JError "Failed to fetch invoice")
                  end)
  /\ (forall view, parsed w' row = Some view ->
        v_invoice view = otherColumns row
        /\ (Routes.milestones b = None -> v_milestones view = None)
        /\ (forall l, Routes.milestones b = Some l -> stringify w l <> "" ->
              v_milestones view = parse w' (stringify w l)))
  /\ (forall rows,
        listInvoices w' (Some (creator_wallet row)) db'
          = (db', respond 200 (JInvoices rows)) ->
        is_Some (parsed w' row) /\ rows !! Db.id row = parsed w' row)
  /\ invoices db !! Db.id row = None
  /\ payment_link row = Some link
  /\ qr = ("/pay/" ++ Db.id row ++ "/qr")%string
  /\ Db.status row = Some "pending"
  /\ reminder_count row = 0.
Proof.
  intros H. destruct (createInvoice_201 w b db db' _ H)
    as (link' & Hm & Hl & Hfree & -> & Hj).
  injection Hj as Hrow Hlink Hqr. subst row link qr. rename link' into link.
  assert (Hget : invoices
                   (with_invoices db (<[nextId w := newRow w b link]> (invoices db)))
                   !! nextId w = Some (newRow w b link)).
  { unfold with_invoices. cbn [invoices]. apply lookup_insert_eq. }
  split; [reflexivity|]. split; [|split; [|split]].
  - cbn [router method path newRow Db.id]. unfold getInvoice, invoiceQueries.getById.
    rewrite Hget. destruct (parsed w' (newRow w b link)); reflexivity.
  - intros view Hview. destruct (parsed_view w' _ view Hview) as (Hrow & Hnone & Hsome).
    split; [exact Hrow|]. cbn [newRow Db.milestones] in Hnone, Hsome. split.
    + intros Hb. apply Hnone. rewrite Hb. reflexivity.
    + intros l Hb Hne. apply Hsome; [rewrite Hb; reflexivity|exact Hne].
  - intros rows. unfold listInvoices.
    destruct (missingRequired_false b Hm) as (Hcw & _).
    change (creator_wallet (newRow w b link)) with (default "" (creatorWallet b)).
    change (Db.id (newRow w b link)) with (nextId w).
    unfold Js.truthy_string.
    destruct (String.eqb_spec (default "" (creatorWallet b)) ""); [contradiction|].
    cbn [negb]. cbn zeta.
    assert (Hin : invoiceQueries.getByCreator (default "" (creatorWallet b))
                    (with_invoices db (<[nextId w := newRow w b link]> (invoices db)))
                  !! nextId w = Some (newRow w b link)).
    { unfold invoiceQueries.getByCreator. apply map_lookup_filter_Some.
      split; [exact Hget|reflexivity]. }
    destruct (bool_decide_reflect
                (map_Forall (fun _ inv => is_Some (parsed w' inv))
                   (invoiceQueries.getByCreator (default "" (creatorWallet b))
                      (with_invoices db
                         (<[nextId w := newRow w b link]> (invoices db))))))
      as [Hall|Hall]; [|intros Hx; discriminate Hx].
    intros [= <-]. split; [exact (Hall _ _ Hin)|].
    rewrite lookup_omap, Hin. reflexivity.
  - cbn [newRow Db.id payment_link Db.status reminder_count]. repeat split. exact Hfree.
Qed.

(** *** Reminders and status *)


(** *** Clients *)

(** X8.  Creating a client is answered 400 and stores nothing when
    ownerWallet or name is missing (falsy); otherwise it stores exactly one
    client under the new id and answers 201 with it, or answers 500 and
    stores nothing when the id is taken; in no case does it touch an
    invoice. *)
Theorem createClient_behaviour (w : World) (b : Body) (db : Database) :
  invoices (createClient w b db).1 = invoices db
  /\ (missingString (ownerWallet b) \/ missingString (name b) ->
      createClient w b db = (db, respond 400 (JError "Owner wallet and name required")))
  /\ (~ missingString (ownerWallet b) -> ~ missingString (name b) ->
      (is_Some (clients db !! nanoid w 10) ->
       createClient w b db = (db, respond 500 (JError "Failed to create client")))
      /\ (clients db !! nanoid w 10 = None ->
          exists c,
            createClient w b db
              = (with_clients db (<[nanoid w 10 := c]> (clients db)),
                 respond 201 (JClient (Some c)))
            /\ c_id c = nanoid w 10
            /\ Some (c_owner_wallet c) = ownerWallet b
            /\ Some (c_name c) = name b
            /\ c_email c = Js.or_null (email b)
            /\ c_wallet c = Js.or_null (wallet b)
            /\ size (clients (createClient w b db).1) = S (size (clients db)))).
Proof.
  split; [apply createClient_invoices|]. unfold createClient.
  destruct (ownerWallet b) as [ow|].
  2:{ split; [reflexivity|]. intros H. exfalso. apply H. left. reflexivity. }
  destruct (name b) as [n|].
  2:{ split; [reflexivity|]. intros _ H. exfalso. apply H. left. reflexivity. }
  unfold Js.truthy_string.
  destruct (String.eqb_spec ow "") as [->|How]; cbn [negb orb].
  { split; [reflexivity|]. intros H. exfalso. apply H. right. reflexivity. }
  destruct (String.eqb_spec n "") as [->|Hn]; cbn [negb orb].
  { split; [reflexivity|]. intros _ H. exfalso. apply H. right. reflexivity. }
  split.
  - unfold missingString. intros [[H|H]|[H|H]]; congruence.
  - intros _ _. unfold clientQueries.create, clientQueries.getById. split.
    + intros [c Hc]. rewrite Hc. reflexivity.
    + intros Hfree. rewrite Hfree. eexists. cbn [with_clients clients fst].
      rewrite lookup_insert_eq. repeat split.
      apply map_size_insert_None, Hfree.
Qed.

(** *** The properties above on the sample store *)

(** X1 on the create request with a creator that is no public key. *)
Lemma router_errors_witness :
  router Sample.world (Sample.postCreate "not-a-wallet") Sample.emptyDb
    = Some (Sample.emptyDb, respond 500 (JError "Failed to create invoice"))
  /\ (400 <= 500 <-> exists msg, JError "Failed to create invoice" = JError msg)
  /\ (400 <= 500 -> Sample.emptyDb = Sample.emptyDb).
Proof.
  assert (H : router Sample.world (Sample.postCreate "not-a-wallet") Sample.emptyDb
              = Some (Sample.emptyDb, respond 500 (JError "Failed to create invoice")))
    by (vm_compute; reflexivity).
  split; [exact H|].
  exact (proj2 (router_errors_change_nothing _ _ _ _ _ H)).
Defined.

(** X2 on GET /:id for the stored invoice. *)
Lemma router_get_witness :
  router Sample.world Sample.getStored Sample.oneInvoiceDb
    = Some (Sample.oneInvoiceDb,
            respond 200 (JInvoice {| v_invoice := Sample.storedRow;
                                     v_milestones := None |}))
  /\ Sample.oneInvoiceDb = Sample.oneInvoiceDb.
Proof.
  assert (H : router Sample.world Sample.getStored Sample.oneInvoiceDb
              = Some (Sample.oneInvoiceDb,
                      respond 200 (JInvoice {| v_invoice := Sample.storedRow;
                                     v_milestones := None |})))
    by (vm_compute; reflexivity).
  split; [exact H|].
  exact (router_get_reads_only Sample.world Sample.getStored _ _ _ eq_refl H).
Defined.

(** X3 on PATCH /:id/status with "paid" for the stored invoice. *)
Lemma router_terms_witness :
  exists row',
    invoices (patchStatus Sample.world "INV-K3YW_X9Q" (Sample.statusBody "paid")
                Sample.oneInvoiceDb).1 !! "INV-K3YW_X9Q" = Some row'
    /\ sameTerms Sample.storedRow row'.
Proof.
  apply (router_keeps_invoice_terms Sample.world (Sample.patchStored "paid")
           Sample.oneInvoiceDb _ (respond 200 (JSuccess None))).
  - vm_compute. reflexivity.
  - vm_compute. reflexivity.
Defined.

(** X4 on the run that creates the sample invoice. *)
Lemma served_invoices_witness :
  Db.id Sample.storedRow = "INV-K3YW_X9Q"
  /\ startsWith "INV-" "INV-K3YW_X9Q"
  /\ is_Some (PublicKey.new (creator_wallet Sample.storedRow))
  /\ Db.amount Sample.storedRow <> 0
  /\ due_date Sample.storedRow <> 0
  /\ payment_link Sample.storedRow
     = SolanaPay.generatePaymentLink Sample.platform ∅ (Db.id Sample.storedRow)
         (creator_wallet Sample.storedRow) (Db.amount Sample.storedRow)
         (token_mint Sample.storedRow) (Db.memo Sample.storedRow)
  /\ is_Some (payment_link Sample.storedRow)
  /\ (is_Some (paid_at Sample.storedRow) <-> Db.status Sample.storedRow = Some "paid")
  /\ 0 <= reminder_count Sample.storedRow
  /\ (last_reminder_at Sample.storedRow = None <-> reminder_count Sample.storedRow = 0).
Proof.
  apply (served_invoices_are_consistent Sample.platform
           [(Sample.world, Sample.postCreate "11111111111111111111111111111111")]).
  - repeat constructor.
  - vm_compute. reflexivity.
Defined.

(** X5 on the run that creates the sample invoice. *)
Lemma get_clients_witness :
  router Sample.world
    {| method := GET; path := ["clients"]; query_wallet := Some "anyone";
       body := Sample.emptyBody |}
    (serve [(Sample.world, Sample.postCreate "11111111111111111111111111111111")]
       Sample.emptyDb)
  = Some (serve [(Sample.world, Sample.postCreate "11111111111111111111111111111111")]
            Sample.emptyDb,
          respond 404 (JError "Invoice not found")).
Proof.
  apply (get_clients_is_shadowed Sample.platform). repeat constructor.
Defined.

(** X6 on the sample invoice with two milestones: the row of the 201 body
    holds their JSON text, the GET body holds them parsed. *)
Lemma created_invoice_witness :
  Db.milestones Sample.milestonesRow = Some (Sample.stringify Sample.milestones)
  /\ router Sample.world Sample.getStored Sample.milestonesDb
     = Some (Sample.milestonesDb,
             respond 200
               (JInvoice {| v_invoice := otherColumns Sample.milestonesRow;
                            v_milestones :=
                              Some (ParsedMilestones Sample.milestones) |}))
  /\ payment_link Sample.milestonesRow = Some Sample.storedLink
  /\ reminder_count Sample.milestonesRow = 0.
Proof.
  destruct (created_invoice_reads_back Sample.world Sample.world
              Sample.milestonesBody Sample.emptyDb Sample.milestonesDb
              Sample.milestonesRow Sample.storedLink
              "/pay/INV-K3YW_X9Q/qr" None Sample.emptyBody)
    as (Hms & Hget & _ & _ & _ & Hlink & _ & _ & Hcount).
  - vm_compute. reflexivity.
  - assert (Hp : parsed Sample.world Sample.milestonesRow
                 = Some {| v_invoice := otherColumns Sample.milestonesRow;
                           v_milestones :=
                             Some (ParsedMilestones Sample.milestones) |})
      by (vm_compute; reflexivity).
    rewrite Hp in Hget. repeat split; assumption.
Defined.


End RunsProps.

(** ** The payment link *)

Module LinkProps.
Import SolanaPay Query.

(** X9.  A payment link is generated exactly for a recipient that is a
    base58 public key of 32 bytes, and it then reads "solana:", the
    recipient as it was given, "?", and the serialized parameters. *)
Theorem link_names_the_recipient
    (pf : Platform) (env : gmap string string) (invoiceId recipient : string)
    (amount : Z) (tokenMint : string) (memo : option string) :
  match PublicKey.new recipient with
  | Some _ =>
      generatePaymentLink pf env invoiceId recipient amount tokenMint memo
      = Some ("solana:" ++ recipient ++ "?"
              ++ serialize (linkParams pf invoiceId amount tokenMint memo))%string
  | None =>
      generatePaymentLink pf env invoiceId recipient amount tokenMint memo = None
  end.
Proof.
  unfold generatePaymentLink.
  destruct (PublicKey.new recipient) as [key|] eqn:Hkey; [|reflexivity].
  destruct (Base58Props.PublicKey_toString_new recipient key Hkey) as [Hs _].
  cbn [mbind option_bind]. rewrite Hs. reflexivity.
Qed.

(** *** No parameter can be smuggled into the query *)

Lemma count_app (c : ascii) (a b : string) :
  count c (a ++ b)%string = (count c a + count c b)%nat.
Proof.
  induction a as [|d a IH]; [reflexivity|].
  change (count c (String d (a ++ b)%string) = (count c (String d a) + count c b)%nat).
  cbn [count]. rewrite IH. lia.
Qed.

Lemma encodeByte_safe (c d : ascii) :
  safeChar d = false -> count d (encodeByte c) = O.
Proof.
  intros Hd.
  assert (Hne : forall x, safeChar x = true -> Ascii.eqb d x = false).
  { intros x Hx. destruct (Ascii.eqb_spec d x) as [->|]; congruence. }
  destruct c as [[] [] [] [] [] [] [] []]; vm_compute encodeByte; cbn [count];
    rewrite ?Hne by reflexivity; reflexivity.
Qed.

Lemma urlencode_safe (s : string) (d : ascii) :
  safeChar d = false -> count d (urlencode s) = O.
Proof.
  intros Hd. induction s as [|c s IH]; [reflexivity|].
  cbn [urlencode]. rewrite count_app, IH, encodeByte_safe by assumption. reflexivity.
Qed.

Lemma encodePair_count (kv : string * string) (d : ascii) :
  safeChar d = false ->
  count d (encodePair kv) = if Ascii.eqb d "="%char then 1%nat else 0%nat.
Proof.
  intros Hd. unfold encodePair.
  rewrite !count_app, !urlencode_safe by assumption. cbn [count]. lia.
Qed.

Lemma serialize_count (params : list (string * string)) (d : ascii) :
  safeChar d = false ->
  count d (serialize params)
  = ((if Ascii.eqb d "="%char then length params else 0)
     + (if Ascii.eqb d "&"%char then pred (length params) else 0))%nat.
Proof.
  intros Hd. induction params as [|kv rest IH]; cbn [serialize].
  - cbn. destruct (Ascii.eqb d "="), (Ascii.eqb d "&"); reflexivity.
  - destruct rest as [|kv' rest'].
    + rewrite encodePair_count by assumption. cbn [length pred].
      destruct (Ascii.eqb d "="), (Ascii.eqb d "&"); reflexivity.
    + rewrite !count_app, encodePair_count, IH by assumption.
      cbn [count length pred].
      destruct (Ascii.eqb d "="), (Ascii.eqb d "&"); lia.
Qed.

(** X10.  Whatever the invoice id, the token mint and the memo contain,
    the query of the link has exactly the parameters amount, spl-token
    (for a mint other than SOL), reference, label and message, in this
    order: it has one "=" per parameter and one "&" between two of them, and
    no space, "#" or "?" at all. *)
Theorem link_query_is_well_delimited
    (pf : Platform) (invoiceId : string) (amount : Z) (tokenMint : string)
    (memo : option string) :
  let params := linkParams pf invoiceId amount tokenMint memo in
  let query := serialize params in
  map fst params
    = (if String.eqb tokenMint SOL_MINT
       then ["amount"; "reference"; "label"; "message"]
       else ["amount"; "spl-token"; "reference"; "label"; "message"])
  /\ count "="%char query = length params
  /\ count "&"%char query = pred (length params)
  /\ count " "%char query = O
  /\ count "#"%char query = O
  /\ count "?"%char query = O.
Proof.
  cbn zeta. split.
  - unfold linkParams. destruct (String.eqb tokenMint SOL_MINT); reflexivity.
  - rewrite !serialize_count by reflexivity. cbn. repeat split; lia.
Qed.

End LinkProps.

(** ** More of the payment page *)

Module PayMoreProps.
Import PayPage.

(** X11.  With double or nothing chosen, a balance that passes the check
    of the Pay button also passes the check of the toggle, and for a token
    other than SOL the two checks agree; for SOL the toggle ignores the fee
    buffer, so a balance from twice the amount up to 0.01 SOL more lets the
    client choose double or nothing and then refuses the payment with
    "Insufficient balance" without sending anything. *)
Theorem toggle_ignores_fee_buffer
    (c : Chain) (b : Backend) (p : Page) (d : PaymentData) (balance : Z) :
  data p = Some d ->
  walletBalance p = Some balance ->
  doubleOrNothing p = true ->
  (hasEnoughBalance p = true -> canAffordDouble p = true)
  /\ (tokenMint d <> SOL_MINT -> hasEnoughBalance p = canAffordDouble p)
  /\ (tokenMint d = SOL_MINT ->
      amount d * 2 <= balance < amount d * 2 + 10000000 ->
      canAffordDouble p = true
      /\ hasEnoughBalance p = false
      /\ (is_Some (publicKey p) -> signTransaction p = true ->
          handlePay c b p = [Notify (ToastError (Some "Insufficient balance"))])).
Proof.
  intros Hd Hb Hdn.
  assert (Hsol : tokenMint d = SOL_MINT ->
                 amount d * 2 <= balance < amount d * 2 + 10000000 ->
                 hasEnoughBalance p = false).
  { unfold hasEnoughBalance. rewrite Hd, Hb, Hdn. cbn [getPaymentAmount].
    intros ->. rewrite String.eqb_refl. lia. }
  split; [|split].
  - unfold hasEnoughBalance, canAffordDouble. rewrite Hd, Hb, Hdn.
    cbn [getPaymentAmount]. destruct (String.eqb (tokenMint d) SOL_MINT); lia.
  - unfold hasEnoughBalance, canAffordDouble. rewrite Hd, Hb, Hdn.
    cbn [getPaymentAmount]. intros Hne.
    destruct (String.eqb_spec (tokenMint d) SOL_MINT); [contradiction|].
    f_equal. lia.
  - intros Hmint Hwin. split; [|split].
    + unfold canAffordDouble. rewrite Hd, Hb. lia.
    + apply Hsol; assumption.
    + intros [pk Hpk] Hsign. unfold handlePay, failed.
      rewrite Hpk, Hsign, Hd, (Hsol Hmint Hwin). reflexivity.
Qed.

Definition isSend (e : Effect) : bool :=
  match e with
  | Send _ _ => true
  | _ => false
  end.

Lemma spin_effects (b : Backend) (pk : Key) (d : PaymentData) (pay : Z)
    (signature : string) :
  forallb (fun e => negb (isSend e)) (spin b pk d pay signature) = true.
Proof. unfold spin, failed. repeat case_match; reflexivity. Qed.

Lemma standard_effects (b : Backend) (d : PaymentData) (signature : string) :
  forallb (fun e => negb (isSend e)) (standard b d signature) = true.
Proof. unfold standard, failed. repeat case_match; reflexivity. Qed.

Lemma no_send_not_in (l : list Effect) (tx : list Instruction) (s : string) :
  forallb (fun e => negb (isSend e)) l = true -> ~ In (Send tx s) l.
Proof.
  intros H Hin. rewrite forallb_forall in H. apply H in Hin. discriminate.
Qed.

Lemma no_send_filter (l : list Effect) :
  forallb (fun e => negb (isSend e)) l = true -> List.filter isSend l = [].
Proof.
  induction l as [|e l IH]; [reflexivity|]. cbn [forallb List.filter].
  intros H. apply andb_true_iff in H as [He Hl].
  apply negb_true_iff in He. rewrite He. apply IH, Hl.
Qed.

(** X12.  A run of handlePay sends at most one transaction, and only as
    its first act, for a connected wallet whose balance passed the check;
    and the page is marked paid only after a transaction was sent and
    confirmed. *)
Theorem handlePay_sends_once_and_marks_paid_after
    (c : Chain) (b : Backend) (p : Page) :
  (length (List.filter isSend (handlePay c b p)) <= 1)%nat
  /\ (forall tx signature,
        In (Send tx signature) (handlePay c b p) ->
        hd_error (handlePay c b p) = Some (Send tx signature)
        /\ hasEnoughBalance p = true
        /\ signTransaction p = true
        /\ exists pk d, publicKey p = Some pk /\ data p = Some d
             /\ buildTransaction c p pk d = Some tx
             /\ sendRawTransaction c tx = Some signature)
  /\ (In SetStatusPaid (handlePay c b p) ->
      exists tx signature,
        hd_error (handlePay c b p) = Some (Send tx signature)
        /\ confirmedWithin30 c signature = true).
Proof.
  destruct (PayPageProps.handlePay_cases c b p)
    as [[msg ->]|(pk & d & tx & signature & rest & Hpk & Hsign & Hd & Hbal & Hb
                  & Hs & -> & Hrest)].
  { split; [cbn; lia|]. split.
    - intros tx s [H|[]]. discriminate.
    - intros [H|[]]. discriminate. }
  assert (Hno : forallb (fun e => negb (isSend e)) rest = true).
  { destruct Hrest as [[_ ->]|[_ ->]]; [reflexivity|].
    destruct (doubleOrNothing p); [apply spin_effects|apply standard_effects]. }
  split; [|split].
  - cbn [List.filter isSend length]. rewrite (no_send_filter rest Hno). cbn. lia.
  - intros tx' s' [H|H]; [|exfalso; exact (no_send_not_in rest tx' s' Hno H)].
    injection H as <- <-. eauto 12.
  - intros [H|H]; [discriminate|]. exists tx, signature. split; [reflexivity|].
    destruct Hrest as [[_ ->]|[Hc _]]; [|exact Hc].
    destruct H as [H|[]]. discriminate.
Qed.

(** X13.  Every transaction the page builds pays the creator first and
    exactly the invoice amount; the only other transfer it can carry is the
    equal lottery stake to the pool wallet, present exactly when double or
    nothing is chosen, the amount is positive and the pool wallet address
    is known. *)
Theorem built_transaction_transfers
    (c : Chain) (p : Page) (pk : Key) (d : PaymentData) (tx : list Instruction) :
  0 <= amount d ->
  buildTransaction c p pk d = Some tx ->
  exists recipient toCreator,
    PublicKey.new (creatorWallet d) = Some recipient
    /\ payee c d recipient = Some toCreator
    /\ if doubleOrNothing p && (amount d >? 0)
          && Js.truthy_opt Js.truthy_string (poolWalletAddress p)
       then exists pool toPool,
              poolKey p = Some pool /\ payee c d pool = Some toPool
              /\ transfers tx = [(toCreator, amount d); (toPool, amount d)]
       else transfers tx = [(toCreator, amount d)].
Proof.
  unfold buildTransaction, payee, isLottery. intros _ Hb.
  destruct (PublicKey.new (creatorWallet d)) as [recipient|]; [|discriminate].
  destruct (PublicKey.new (tokenMint d)) as [mint|]; [|discriminate].
  cbn [mbind option_bind] in Hb |- *.
  assert (Hprem : (getPaymentAmount (Some d) (doubleOrNothing p) - amount d >? 0)
                  && doubleOrNothing p
                  = (amount d >? 0) && doubleOrNothing p).
  { destruct (doubleOrNothing p); cbn [getPaymentAmount]; [|rewrite !andb_false_r; reflexivity].
    rewrite !andb_true_r. f_equal. lia. }
  assert (Hprem' : doubleOrNothing p
                   && (getPaymentAmount (Some d) (doubleOrNothing p) - amount d >? 0)
                   = doubleOrNothing p && (amount d >? 0)).
  { rewrite (andb_comm (doubleOrNothing p)), Hprem. apply andb_comm. }
  rewrite Hprem' in Hb.
  exists recipient.
  destruct (String.eqb (tokenMint d) SOL_MINT).
  - destruct (negb (u64 (amount d))); [discriminate Hb|].
    exists recipient. repeat split.
    destruct (doubleOrNothing p && (amount d >? 0)
              && Js.truthy_opt Js.truthy_string (poolWalletAddress p)) eqn:Hl.
    + assert (Hdn : doubleOrNothing p = true)
        by (destruct (doubleOrNothing p); [reflexivity|discriminate]).
      rewrite Hdn in Hb. cbn [getPaymentAmount] in Hb.
      replace (amount d * 2 - amount d) with (amount d) in Hb by lia.
      destruct (poolKey p) as [pool|]; [|discriminate].
      cbn [mbind option_bind] in Hb.
      destruct (negb (u64 (amount d))); [discriminate Hb|]. injection Hb as <-.
      exists pool, pool. repeat split.
    + injection Hb as <-. reflexivity.
  - destruct (getAssociatedTokenAddress c mint pk) as [payerAta|]; [|discriminate].
    destruct (getAssociatedTokenAddress c mint recipient) as [recipientAta|];
      [|discriminate].
    cbn [mbind option_bind] in Hb.
    destruct (negb (u64 (amount d))) eqn:Hu; [discriminate Hb|].
    exists recipientAta. repeat split.
    destruct (doubleOrNothing p && (amount d >? 0)
              && Js.truthy_opt Js.truthy_string (poolWalletAddress p)) eqn:Hl.
    + assert (Hdn : doubleOrNothing p = true)
        by (destruct (doubleOrNothing p); [reflexivity|discriminate]).
      rewrite Hdn in Hb. cbn [getPaymentAmount] in Hb.
      replace (amount d * 2 - amount d) with (amount d) in Hb by lia.
      destruct (poolKey p) as [pool|]; [|discriminate].
      cbn [mbind option_bind] in Hb.
      destruct (getAssociatedTokenAddress c mint pool) as [poolAta|] eqn:Hp;
        [|discriminate].
      cbn [mbind option_bind] in Hb. rewrite Hu in Hb. injection Hb as <-.
      exists pool, poolAta. repeat split; [assumption|].
      destruct (getAccount c recipientAta), (getAccount c poolAta); reflexivity.
    + injection Hb as <-. destruct (getAccount c recipientAta); reflexivity.
Qed.

Lemma spin_shape (b : Backend) (pk : Key) (d : PaymentData) (pay : Z)
    (signature : string) :
  let vr := {| v_invoiceId := id d; v_txSignature := signature;
               v_expectedAmount := Some (amount d) |} in
  let er := {| e_invoiceId := id d;
               e_clientWallet := PublicKey.toString pk;
               e_premiumPaid := pay - amount d;
               e_riskSlider := 50;
               e_txSignature := signature |} in
  (verifyPayment b vr <> Some true
   /\ spin b pk d pay signature = [Verify vr; Notify (ToastError None)])
  \/ (verifyPayment b vr = Some true
      /\ exists rest,
           spin b pk d pay signature = Verify vr :: CreateEntry er :: rest
           /\ (forall r, ~ In (CreateEntry r) rest)
           /\ (forall entryId won,
                 In (Settle entryId won) rest ->
                 createLotteryEntry b er = Some entryId
                 /\ settleLottery b entryId = Some won)).
Proof.
  cbn zeta. unfold spin, failed.
  destruct (verifyPayment b _) as [[|]|]; [|left; split; [discriminate|reflexivity]..].
  right. split; [reflexivity|].
  destruct (createLotteryEntry b _) as [entryId|].
  - destruct (settleLottery b entryId) as [won|] eqn:Hw.
    + eexists. split; [reflexivity|]. split.
      * intros r Hin. cbn [In] in Hin. intuition discriminate.
      * intros eid w Hin. cbn [In] in Hin.
        destruct Hin as [H|[H|[H|[]]]]; try discriminate.
        injection H as <- <-. split; [reflexivity|exact Hw].
    + eexists. split; [reflexivity|]. split.
      * intros r Hin. cbn [In] in Hin. intuition discriminate.
      * intros eid w Hin. cbn [In] in Hin. exfalso. intuition discriminate.
  - eexists. split; [reflexivity|]. split.
    + intros r Hin. cbn [In] in Hin. intuition discriminate.
    + intros eid w Hin. cbn [In] in Hin. exfalso. intuition discriminate.
Qed.

(** X14.  A lottery entry is created only after the transaction was sent
    and confirmed and the API has verified it against the invoice amount;
    the entry carries the signature of that transaction, the id of the
    invoice and the wallet that paid; and a settlement follows only for the
    entry id the API returned for it. *)
Theorem lottery_entry_follows_verification
    (c : Chain) (b : Backend) (p : Page) (r : LotteryEntryRequest) :
  In (CreateEntry r) (handlePay c b p) ->
  exists pk d tx signature rest,
    publicKey p = Some pk /\ data p = Some d
    /\ handlePay c b p
       = Send tx signature
         :: Verify {| v_invoiceId := id d; v_txSignature := signature;
                      v_expectedAmount := Some (amount d) |}
         :: CreateEntry r :: rest
    /\ confirmedWithin30 c signature = true
    /\ verifyPayment b {| v_invoiceId := id d; v_txSignature := signature;
                          v_expectedAmount := Some (amount d) |} = Some true
    /\ e_txSignature r = signature
    /\ e_invoiceId r = id d
    /\ e_clientWallet r = PublicKey.toString pk
    /\ (forall entryId won,
          In (Settle entryId won) rest ->
          createLotteryEntry b r = Some entryId
          /\ settleLottery b entryId = Some won).
Proof.
  intros Hin.
  destruct (PayPageProps.handlePay_cases c b p)
    as [[msg Hrun]|(pk & d & tx & signature & rest & Hpk & Hsign & Hd & Hbal & Hb
                    & Hs & Hrun & Hrest)];
    rewrite Hrun in Hin.
  { destruct Hin as [H|[]]. discriminate. }
  destruct Hin as [H|Hin]; [discriminate|].
  destruct Hrest as [[_ ->]|[Hc ->]]; [destruct Hin as [H|[]]; discriminate|].
  exists pk, d, tx, signature. rewrite Hrun.
  destruct (doubleOrNothing p).
  2:{ exfalso. unfold standard, failed in Hin.
      destruct (verifyPayment b _) as [[|]|]; cbn [In] in Hin;
        intuition discriminate. }
  destruct (spin_shape b pk d (getPaymentAmount (data p) true) signature)
    as [[_ Hspin]|(Hv & rest & Hspin & Hnone & Hsettle)];
    rewrite Hspin in Hin |- *.
  { exfalso. cbn [In] in Hin. intuition discriminate. }
  destruct Hin as [H|[H|Hin]]; [discriminate| |exfalso; exact (Hnone r Hin)].
  injection H as <-. exists rest.
  repeat (split; [first [assumption|reflexivity]|]). exact Hsettle.
Qed.

(** X15.  When the API refuses to verify a confirmed payment, the standard
    flow still marks the invoice paid on the page, with a notice that the
    confirmation will follow, while the double-or-nothing flow stops: it
    reports the error, creates no lottery entry and does not mark the
    invoice paid. *)
Theorem refused_verification
    (c : Chain) (b : Backend) (p : Page) (pk : Key) (d : PaymentData)
    (tx : list Instruction) (signature : string) :
  publicKey p = Some pk -> signTransaction p = true -> data p = Some d ->
  hasEnoughBalance p = true ->
  buildTransaction c p pk d = Some tx ->
  sendRawTransaction c tx = Some signature ->
  confirmedWithin30 c signature = true ->
  verifyPayment b {| v_invoiceId := id d; v_txSignature := signature;
                     v_expectedAmount :=
                       if doubleOrNothing p then Some (amount d) else None |}
    = Some false ->
  handlePay c b p
  = Send tx signature
    :: Verify {| v_invoiceId := id d; v_txSignature := signature;
                 v_expectedAmount :=
                   if doubleOrNothing p then Some (amount d) else None |}
    :: (if doubleOrNothing p
        then [Notify (ToastError None)]
        else [Notify (ToastError
                (Some "Payment sent but verification failed. It will be confirmed shortly."));
              SetStatusPaid]).
Proof.
  intros Hpk Hsign Hd Hbal Hb Hs Hc Hv. unfold handlePay.
  rewrite Hpk, Hsign, Hd, Hbal, Hb, Hs, Hc. cbn [negb].
  destruct (doubleOrNothing p); unfold spin, standard, failed; rewrite Hv; reflexivity.
Qed.

(** *** The properties above on the sample page *)

(** X11 on a wallet holding exactly twice the invoice amount in SOL. *)
Lemma toggle_witness :
  canAffordDouble Sample.tightPage = true
  /\ hasEnoughBalance Sample.tightPage = false
  /\ handlePay Sample.chain Sample.backend Sample.tightPage
     = [Notify (ToastError (Some "Insufficient balance"))].
Proof.
  destruct (toggle_ignores_fee_buffer Sample.chain Sample.backend Sample.tightPage
              Sample.invoice100 200 eq_refl eq_refl eq_refl) as (_ & _ & H).
  destruct (H eq_refl ltac:(cbn; lia)) as (H1 & H2 & H3).
  split; [exact H1|]. split; [exact H2|].
  apply H3; [eexists; reflexivity|reflexivity].
Defined.

(** X13 on the standard payment of the sample invoice. *)
Lemma built_transaction_witness :
  exists recipient toCreator,
    PublicKey.new (creatorWallet Sample.invoice100) = Some recipient
    /\ payee Sample.chain Sample.invoice100 recipient = Some toCreator
    /\ transfers [SystemTransfer Sample.zeroKey Sample.zeroKey 100]
       = [(toCreator, 100)].
Proof.
  apply (built_transaction_transfers Sample.chain Sample.standardPage Sample.zeroKey
           Sample.invoice100 [SystemTransfer Sample.zeroKey Sample.zeroKey 100]).
  - cbn. lia.
  - vm_compute. reflexivity.
Defined.

(** X14 on the double-or-nothing payment of the sample invoice. *)
Lemma lottery_entry_witness :
  exists pk d tx signature rest,
    publicKey (Sample.page None) = Some pk /\ data (Sample.page None) = Some d
    /\ handlePay Sample.chain Sample.backend (Sample.page None)
       = Send tx signature
         :: Verify {| v_invoiceId := id d; v_txSignature := signature;
                      v_expectedAmount := Some (amount d) |}
         :: CreateEntry
              {| e_invoiceId := "INV-AAAAAAAA";
                 e_clientWallet := "11111111111111111111111111111111";
                 e_premiumPaid := 100; e_riskSlider := 50;
                 e_txSignature := "5sig" |}
         :: rest
    /\ confirmedWithin30 Sample.chain signature = true
    /\ verifyPayment Sample.backend
         {| v_invoiceId := id d; v_txSignature := signature;
            v_expectedAmount := Some (amount d) |} = Some true
    /\ "5sig" = signature
    /\ "INV-AAAAAAAA" = id d
    /\ "11111111111111111111111111111111" = PublicKey.toString pk
    /\ (forall entryId won,
          In (Settle entryId won) rest ->
          createLotteryEntry Sample.backend
            {| e_invoiceId := "INV-AAAAAAAA";
               e_clientWallet := "11111111111111111111111111111111";
               e_premiumPaid := 100; e_riskSlider := 50;
               e_txSignature := "5sig" |} = Some entryId
          /\ settleLottery Sample.backend entryId = Some won).
Proof.
  apply (lottery_entry_follows_verification Sample.chain Sample.backend
           (Sample.page None)).
  vm_compute. right. right. left. reflexivity.
Defined.

(** X15 on the standard payment of the sample invoice. *)
Lemma refused_verification_witness :
  handlePay Sample.chain Sample.refusingBackend Sample.standardPage
  = [Send [SystemTransfer Sample.zeroKey Sample.zeroKey 100] "5sig";
     Verify {| v_invoiceId := "INV-AAAAAAAA"; v_txSignature := "5sig";
               v_expectedAmount := None |};
     Notify (ToastError
       (Some "Payment sent but verification failed. It will be confirmed shortly."));
     SetStatusPaid].
Proof.
  apply (refused_verification Sample.chain Sample.refusingBackend Sample.standardPage
           Sample.zeroKey Sample.invoice100
           [SystemTransfer Sample.zeroKey Sample.zeroKey 100] "5sig");
    vm_compute; reflexivity.
Defined.

End PayMoreProps.

(** ** The transaction the server builds *)

Module ServerTxProps.
Import SolanaPayTx.

Lemma memo_program_key : is_Some (PublicKey.new MEMO_PROGRAM_ID).
Proof. vm_compute. eexists. reflexivity. Qed.

(** X16.  For a standard payment the server and the page build the same
    movement of funds: the transaction of createSolanaPayTransaction
    carries one transfer, of the invoice amount to the account the page pays
    (the creator for SOL, the creator's token account otherwise), followed
    by the memo "InvoiceNow:<invoice id>", with the payer paying the fee. *)
Theorem server_and_page_pay_alike
    (rt : Runtime) (c : PayPage.Chain) (p : PayPage.Page) (pk : Key)
    (d : PayPage.PaymentData) (payer : string)
    (tx : list PayPage.Instruction) (tx' : Transaction) :
  0 <= PayPage.amount d ->
  PayPage.doubleOrNothing p = false ->
  PublicKey.new payer = Some pk ->
  (forall mint owner,
      getAssociatedTokenAddress rt mint owner
      = PayPage.getAssociatedTokenAddress c mint owner) ->
  PayPage.buildTransaction c p pk d = Some tx ->
  buildTransaction rt (PayPage.creatorWallet d) payer (PayPage.amount d)
    (PayPage.tokenMint d) (PayPage.id d) = Some tx' ->
  transfers tx' = PayPage.transfers tx
  /\ (exists toCreator, transfers tx' = [(toCreator, PayPage.amount d)])
  /\ feePayer tx' = pk
  /\ exists transfer memoProgram,
       PublicKey.new MEMO_PROGRAM_ID = Some memoProgram
       /\ instructions tx'
          = [transfer; Memo memoProgram ("InvoiceNow:" ++ PayPage.id d)].
Proof.
  intros _ Hdn Hpayer Hata Hpage Hserver.
  unfold PayPage.buildTransaction, PayPage.isLottery in Hpage.
  unfold buildTransaction in Hserver.
  rewrite Hdn in Hpage. cbn [andb] in Hpage. rewrite Hpayer in Hserver.
  destruct memo_program_key as [memoProgram Hmemo]. rewrite Hmemo in Hserver.
  clear Hpayer.
  destruct (PublicKey.new (PayPage.creatorWallet d)) as [recipient|];
    [|discriminate Hpage].
  destruct (PublicKey.new (PayPage.tokenMint d)) as [mint|] eqn:Hmint;
    [|discriminate Hpage].
  cbn [mbind option_bind] in Hpage, Hserver.
  destruct (String.eqb (PayPage.tokenMint d) SOL_MINT).
  - destruct (negb (u64 (PayPage.amount d))); [discriminate Hpage|].
    injection Hpage as <-. cbn [mbind option_bind] in Hserver.
    destruct (getLatestBlockhash rt) as [[blockhash height]|];
      [|discriminate Hserver].
    injection Hserver as <-.
    split; [reflexivity|]. split; [eexists; reflexivity|]. split; [reflexivity|].
    exists (SystemTransfer pk recipient (PayPage.amount d)), memoProgram.
    split; [exact Hmemo|reflexivity].
  - rewrite !Hata in Hserver.
    destruct (PayPage.getAssociatedTokenAddress c mint pk) as [payerAta|];
      [|discriminate Hpage].
    destruct (PayPage.getAssociatedTokenAddress c mint recipient) as [recipientAta|];
      [|discriminate Hpage].
    cbn [mbind option_bind] in Hpage, Hserver.
    destruct (negb (u64 (PayPage.amount d))); [discriminate Hpage|].
    cbn [mbind option_bind] in Hserver.
    destruct (getLatestBlockhash rt) as [[blockhash height]|];
      [|discriminate Hserver].
    injection Hserver as <-. injection Hpage as <-.
    split; [destruct (PayPage.getAccount c recipientAta); reflexivity|].
    split; [eexists; reflexivity|]. split; [reflexivity|].
    exists (TokenTransfer payerAta recipientAta pk (PayPage.amount d)), memoProgram.
    split; [exact Hmemo|reflexivity].
Qed.

(** X16 on the sample invoice, paid by the system program address. *)
Lemma server_and_page_witness :
  exists tx',
    buildTransaction Sample.runtime "11111111111111111111111111111111"
      "11111111111111111111111111111111" 100 SOL_MINT "INV-AAAAAAAA" = Some tx'
    /\ transfers tx'
       = PayPage.transfers [PayPage.SystemTransfer Sample.zeroKey Sample.zeroKey 100]
    /\ feePayer tx' = Sample.zeroKey.
Proof.
  destruct (buildTransaction Sample.runtime "11111111111111111111111111111111"
              "11111111111111111111111111111111" 100 SOL_MINT "INV-AAAAAAAA")
    as [tx'|] eqn:Hserver; [|vm_compute in Hserver; discriminate Hserver].
  exists tx'. split; [reflexivity|].
  destruct (server_and_page_pay_alike Sample.runtime Sample.chain Sample.standardPage
              Sample.zeroKey Sample.invoice100 "11111111111111111111111111111111"
              [PayPage.SystemTransfer Sample.zeroKey Sample.zeroKey 100] tx')
    as (Hsame & _ & Hfee & _).
  - cbn. lia.
  - reflexivity.
  - vm_compute. reflexivity.
  - intros mint owner. reflexivity.
  - vm_compute. reflexivity.
  - exact Hserver.
  - split; assumption.
Defined.

End ServerTxProps.

(** ** The dashboard *)

Module DashboardProps.
Import Db Dashboard.

Lemma stats_cons (nb : Numbers) (i : Invoice) (l : list Invoice) :
  total (stats nb (i :: l)) = S (total (stats nb l))
  /\ pending (stats nb (i :: l))
     = ((if hasStatus "pending" i then 1 else 0) + pending (stats nb l))%nat
  /\ paid (stats nb (i :: l))
     = ((if hasStatus "paid" i then 1 else 0) + paid (stats nb l))%nat.
Proof.
  unfold stats. cbn [total pending paid List.filter length].
  destruct (hasStatus "pending" i), (hasStatus "paid" i); cbn [length];
    repeat split.
Qed.

Lemma counters_Permutation (nb : Numbers) (l l' : list Invoice) :
  Permutation l l' ->
  total (stats nb l') = total (stats nb l)
  /\ pending (stats nb l') = pending (stats nb l)
  /\ paid (stats nb l') = paid (stats nb l).
Proof.
  induction 1 as [|i l l' _ (IH1 & IH2 & IH3)|i j l
                 |l l' l'' _ (IH1 & IH2 & IH3) _ (IH4 & IH5 & IH6)].
  - repeat split.
  - destruct (stats_cons nb i l) as (-> & -> & ->).
    destruct (stats_cons nb i l') as (-> & -> & ->).
    rewrite IH1, IH2, IH3. repeat split.
  - destruct (stats_cons nb i (j :: l)) as (-> & -> & ->).
    destruct (stats_cons nb j (i :: l)) as (-> & -> & ->).
    destruct (stats_cons nb i l) as (-> & -> & ->).
    destruct (stats_cons nb j l) as (-> & -> & ->).
    repeat split; lia.
  - repeat split; congruence.
Qed.

Lemma pending_not_paid (i : Invoice) :
  hasStatus "pending" i = true -> hasStatus "paid" i = false.
Proof.
  unfold hasStatus. intros H. apply bool_decide_eq_true in H.
  apply bool_decide_eq_false. congruence.
Qed.

(** X17.  On the dashboard the pending and the paid invoices never count
    for more than the total, and make up the total exactly when no invoice
    has another status; the pending and paid filters list as many invoices
    as the counters say and the filter "all" lists every invoice; the three
    counters do not depend on the order in which the invoices arrive; and
    the outstanding amount is the sum, from 0 and in the order of the list,
    of the amounts of the pending invoices, so it is 0 when none is
    pending. *)
Theorem dashboard_stats (nb : Numbers) (l : list Invoice) :
  (pending (stats nb l) + paid (stats nb l) <= total (stats nb l))%nat
  /\ ((pending (stats nb l) + paid (stats nb l))%nat = total (stats nb l) <->
      Forall (fun i => status i = Some "pending" \/ status i = Some "paid") l)
  /\ length (filteredInvoices Pending l) = pending (stats nb l)
  /\ length (filteredInvoices Paid l) = paid (stats nb l)
  /\ filteredInvoices All l = l
  /\ (forall l', Permutation l l' ->
        total (stats nb l') = total (stats nb l)
        /\ pending (stats nb l') = pending (stats nb l)
        /\ paid (stats nb l') = paid (stats nb l))
  /\ totalPending (stats nb l)
     = fold_left (fun sum i => add nb sum (ofAmount nb (amount i)))
         (filteredInvoices Pending l) (zero nb)
  /\ (pending (stats nb l) = 0%nat -> totalPending (stats nb l) = zero nb).
Proof.
  assert (Hle : forall l : list Invoice,
            (pending (stats nb l) + paid (stats nb l) <= total (stats nb l))%nat).
  { clear l. intros l. induction l as [|j l IH]; [cbn; lia|].
    destruct (stats_cons nb j l) as (-> & -> & ->).
    destruct (hasStatus "pending" j) eqn:Hp; [rewrite (pending_not_paid j Hp)|];
      destruct (hasStatus "paid" j); lia. }
  split; [apply Hle|].
  split; [|split; [|split; [|split; [|split; [|split]]]]];
    try reflexivity; try apply counters_Permutation.
  - induction l as [|i l IH]; [cbn; split; [constructor|reflexivity]|].
    specialize (Hle l).
    destruct (stats_cons nb i l) as (-> & -> & ->). rewrite Forall_cons.
    unfold hasStatus in *.
    destruct (bool_decide_reflect (status i = Some "pending")) as [Hp|Hp].
    + rewrite bool_decide_eq_false_2 by congruence.
      rewrite <- IH. split; [intros H; split; [auto|lia]|intros [_ H]; lia].
    + destruct (bool_decide_reflect (status i = Some "paid")) as [Hq|Hq].
      * rewrite <- IH. split; [intros H; split; [auto|lia]|intros [_ H]; lia].
      * split; [intros H; lia|intros [[H|H] _]; contradiction].
  - unfold filteredInvoices. induction l as [|i l IH]; [reflexivity|].
    cbn [List.filter]. rewrite IH. reflexivity.
  - unfold stats. cbn [pending totalPending].
    destruct (List.filter (hasStatus "pending") l); [reflexivity|discriminate].
Qed.

(** X18.  The dashboard offers the reminder button exactly for the invoices
    the API accepts a reminder for: when the button is shown the reminder is
    answered 200 as soon as the e-mail goes out, and when it is not shown
    the API answers 400 and changes nothing. *)
Theorem reminder_button_matches_api
    (w : Routes.World) (id : string) (db : Database) (row : Invoice) :
  invoices db !! id = Some row ->
  (showsReminderButton row = true ->
   Routes.sendReminderEmail w row = true ->
   Routes.code (Routes.remind w id db).2 = 200)
  /\ (showsReminderButton row = false ->
      Routes.code (Routes.remind w id db).2 = 400
      /\ (Routes.remind w id db).1 = db)
  /\ (Routes.code (Routes.remind w id db).2 = 200 ->
      showsReminderButton row = true).
Proof.
  intros Hrow. unfold showsReminderButton, hasStatus, Routes.remind,
    invoiceQueries.getById. rewrite Hrow.
  destruct (bool_decide (status row = Some "pending")); cbn [negb andb];
    [|repeat split; intros; (reflexivity || discriminate)].
  destruct (Js.truthy_opt Js.truthy_string (client_email row)); cbn [negb];
    [|repeat split; intros; (reflexivity || discriminate)].
  destruct (Routes.sendReminderEmail w row);
    repeat split; intros; (reflexivity || discriminate).
Qed.

(** X18 on the sample invoice: the button is shown and the reminder goes
    out. *)
Lemma reminder_button_witness :
  showsReminderButton Sample.storedRow = true
  /\ Routes.code (Routes.remind Sample.world "INV-K3YW_X9Q" Sample.oneInvoiceDb).2 = 200.
Proof.
  destruct (reminder_button_matches_api Sample.world "INV-K3YW_X9Q"
              Sample.oneInvoiceDb Sample.storedRow) as (Hshown & _ & _).
  - vm_compute. reflexivity.
  - split; [reflexivity|]. apply Hshown; reflexivity.
Defined.

End DashboardProps.
